(** * accomo-pricer: a shallow embedding of the price aggregation service

    The development follows the Python sources module by module:
    [config.py], [models.py], [database.py], [crawlers/base_crawler.py],
    [crawlers/airbnb_crawler.py], [crawler_manager.py] and [main.py].

    Conventions of the embedding:
    - Python [str] is [string]; [Optional[T]] is [option T]; a [dict] used as
      a registry is a [gmap]; a [dict] whose iteration order matters
      ([CrawlerManager.crawlers]) is an association list in insertion order.
    - Python [float] values are only stored, compared with literals and
      copied; they are represented by rationals [Q].
    - [datetime] instants are integers (seconds on the process clock).
    - Functions that raise return a [Result]; functions that mutate the
      module globals thread a [World] record explicitly. *)

From Stdlib Require Import ZArith QArith Lia Ascii String.
From stdpp Require Import gmap strings list fin_maps.

Local Open Scope string_scope.
Local Open Scope list_scope.
Local Open Scope Z_scope.

(** ** Results of fallible calls *)

Inductive Result (E A : Type) : Type :=
| Ok (a : A)
| Raise (e : E).
Arguments Ok {E A} a.
Arguments Raise {E A} e.

(** ** [datetime.date] *)

Module Date.

Record date := mk { year : Z; month : Z; day : Z }.

Definition is_leap (y : Z) : bool :=
  ((y mod 4 =? 0) && negb (y mod 100 =? 0)) || (y mod 400 =? 0).

Definition days_in_month (y m : Z) : Z :=
  if (m =? 2) then (if is_leap y then 29 else 28)
  else if (m =? 4) || (m =? 6) || (m =? 9) || (m =? 11) then 30
  else 31.

(** The values the [date] constructor accepts (MINYEAR = 1, MAXYEAR = 9999). *)
Definition valid (d : date) : bool :=
  (1 <=? year d) && (year d <=? 9999) &&
  (1 <=? month d) && (month d <=? 12) &&
  (1 <=? day d) && (day d <=? days_in_month (year d) (month d)).

(** [a <= b] on dates compares (year, month, day) lexicographically. *)
Definition leb (a b : date) : bool :=
  if year a <? year b then true
  else if year b <? year a then false
  else if month a <? month b then true
  else if month b <? month a then false
  else day a <=? day b.

Definition digit (n : Z) : ascii :=
  ascii_of_nat (48 + Z.to_nat (n mod 10))%nat.

Definition two_digits (n : Z) : string :=
  String (digit (n / 10)) (String (digit n) "").

Definition four_digits (n : Z) : string :=
  String (digit (n / 1000)) (String (digit (n / 100))
    (String (digit (n / 10)) (String (digit n) ""))).

(** [date.isoformat()], which is also [str(date)] and what an f-string
    interpolates: [YYYY-MM-DD], zero padded. *)
Definition isoformat (d : date) : string :=
  four_digits (year d) +:+ "-" +:+ two_digits (month d) +:+ "-" +:+ two_digits (day d).

End Date.

Abbreviation date := Date.date.

(** ** models.py *)

(** A Python string is falsy exactly when it is empty; [None] is falsy. *)
Definition truthy_str (s : string) : bool :=
  match s with
  | EmptyString => false
  | String _ _ => true
  end.

Definition truthy_opt_str (o : option string) : bool :=
  match o with
  | Some s => truthy_str s
  | None => false
  end.

(** [class PriceRequest(BaseModel)], in field declaration order. *)
Record PriceRequest := {
  hotel_name : string;
  checkin_date : date;
  checkout_date : date;
  city : string;
  state : option string;
  country : string;
  latitude : option Q;
  longitude : option Q
}.

(** The keyword arguments handed to the [PriceRequest] constructor. A
    required field is [None] when it is missing from the payload or its
    value cannot be coerced to the field's type. For the optional fields the
    outer option records a failed coercion and the inner one absence. *)
Record RawPriceRequest := {
  raw_hotel_name : option string;
  raw_checkin_date : option date;
  raw_checkout_date : option date;
  raw_city : option string;
  raw_state : option (option string);
  raw_country : option string;
  raw_latitude : option (option Q);
  raw_longitude : option (option Q)
}.

(** One entry of a pydantic [ValidationError]: field name and message. *)
Definition FieldError : Type := string * string.

Definition type_error (field : string) : FieldError :=
  (field, "field required or of the wrong type").

(** [@validator('checkout_date') checkout_after_checkin(cls, v, values)]:
    [values] holds the fields validated before this one; [checkin_date] is
    in it only when its own validation succeeded. *)
Definition checkout_after_checkin (v : date) (values_checkin : option date)
  : Result string date :=
  match values_checkin with
  | Some ci => if Date.leb v ci
               then Raise "Checkout date must be after checkin date"
               else Ok v
  | None => Ok v
  end.

Definition Qltb (a b : Q) : bool := negb (Qle_bool b a).

(** [@validator('latitude')] *)
Definition validate_latitude (v : option Q) : Result string (option Q) :=
  match v with
  | Some x => if Qltb x (-90)%Q || Qltb 90%Q x
              then Raise "Latitude must be between -90 and 90"
              else Ok v
  | None => Ok v
  end.

(** [@validator('longitude')] *)
Definition validate_longitude (v : option Q) : Result string (option Q) :=
  match v with
  | Some x => if Qltb x (-180)%Q || Qltb 180%Q x
              then Raise "Longitude must be between -180 and 180"
              else Ok v
  | None => Ok v
  end.

(** Validation of one field: coercion, then the field's validator. *)
Definition validate_field {A : Type} (field : string) (raw : option A)
    (validator : A -> Result string A) : Result FieldError A :=
  match raw with
  | None => Raise (type_error field)
  | Some v => match validator v with
              | Ok v' => Ok v'
              | Raise msg => Raise (field, msg)
              end
  end.

Definition result_value {E A : Type} (r : Result E A) : option A :=
  match r with Ok a => Some a | Raise _ => None end.

Definition result_errors {E A : Type} (r : Result E A) : list E :=
  match r with Ok _ => [] | Raise e => [e] end.

(** The [PriceRequest] constructor: pydantic validates the fields in declaration
    order, collects every field error and raises [ValidationError] when the
    collection is not empty. *)
Definition PriceRequest_init (raw : RawPriceRequest)
  : Result (list FieldError) PriceRequest :=
  let r_name := validate_field "hotel_name" (raw_hotel_name raw) Ok in
  let r_in := validate_field "checkin_date" (raw_checkin_date raw) Ok in
  let r_out := validate_field "checkout_date" (raw_checkout_date raw)
                 (fun v => checkout_after_checkin v (result_value r_in)) in
  let r_city := validate_field "city" (raw_city raw) Ok in
  let r_state := validate_field "state" (raw_state raw) Ok in
  let r_country := validate_field "country" (raw_country raw) Ok in
  let r_lat := validate_field "latitude" (raw_latitude raw) validate_latitude in
  let r_lon := validate_field "longitude" (raw_longitude raw) validate_longitude in
  match r_name, r_in, r_out, r_city, r_state, r_country, r_lat, r_lon with
  | Ok n, Ok ci, Ok co, Ok c, Ok s, Ok k, Ok la, Ok lo =>
      Ok {| hotel_name := n; checkin_date := ci; checkout_date := co;
            city := c; state := s; country := k;
            latitude := la; longitude := lo |}
  | _, _, _, _, _, _, _, _ =>
      Raise (result_errors r_name ++ result_errors r_in ++ result_errors r_out
             ++ result_errors r_city ++ result_errors r_state
             ++ result_errors r_country ++ result_errors r_lat
             ++ result_errors r_lon)
  end.

(** [class SearchResult(BaseModel)] *)
Record SearchResult := {
  platform : string;
  property_name : string;
  price : Q;
  currency : string;
  availability : bool;
  url : option string;
  rating : option Q;
  review_count : option Z;
  amenities : option (list string);
  image_url : option string;
  fetched_at : Z
}.

(** [class CrawledPriceRecord(BaseModel)]; [platform_prices] is a dict in
    insertion order. *)
Record CrawledPriceRecord := {
  rec_hotel_name : string;
  rec_city : string;
  rec_country : string;
  rec_checkin_date : date;
  rec_checkout_date : date;
  rec_state : option string;
  rec_latitude : option Q;
  rec_longitude : option Q;
  rec_platform_prices : list (string * list SearchResult);
  rec_total_results : nat;
  rec_crawled_at : Z;
  rec_job_id : string
}.

(** [class CacheKey(BaseModel)] *)
Record CacheKey := {
  key_hotel_name : string;
  key_city : string;
  key_country : string;
  key_checkin_date : date;
  key_checkout_date : date;
  key_state : option string
}.

(** [CacheKey.to_key]:
    [state_part = f":{self.state}" if self.state else ""] and the f-string
    [prices:{hotel_name}:{city}:{country}:{checkin_date}:{checkout_date}{state_part}]. *)
Definition to_key (k : CacheKey) : string :=
  let state_part :=
    match key_state k with
    | Some s => if truthy_str s then ":" +:+ s else ""
    | None => ""
    end in
  "prices:" +:+ key_hotel_name k +:+ ":" +:+ key_city k +:+ ":" +:+ key_country k
  +:+ ":" +:+ Date.isoformat (key_checkin_date k)
  +:+ ":" +:+ Date.isoformat (key_checkout_date k) +:+ state_part.

(** ** config.py *)

Module Config.

(** [CACHE_TTL = int(os.getenv("CACHE_TTL", 3600))], at its default. *)
Definition CACHE_TTL : Z := 3600.

Definition MAX_PRICE_RESULTS_PER_PLATFORM : Z := 10.

(** One entry of [Config.PLATFORMS]. *)
Record PlatformConfig := {
  enabled : bool;
  base_url : string;
  search_url : string;
  delay_between_requests : Z;
  max_retries : Z
}.

Definition PLATFORMS : list (string * PlatformConfig) :=
  [ ("airbnb", {| enabled := true; base_url := "https://www.airbnb.com";
                  search_url := "https://www.airbnb.com/s/";
                  delay_between_requests := 2; max_retries := 3 |});
    ("booking", {| enabled := true; base_url := "https://www.booking.com";
                   search_url := "https://www.booking.com/search.html";
                   delay_between_requests := 3; max_retries := 3 |});
    ("expedia", {| enabled := true; base_url := "https://www.expedia.com";
                   search_url := "https://www.expedia.com/Hotel-Search";
                   delay_between_requests := 2; max_retries := 3 |});
    ("hotels", {| enabled := true; base_url := "https://www.hotels.com";
                  search_url := "https://www.hotels.com/search.do";
                  delay_between_requests := 2; max_retries := 3 |});
    ("tripadvisor", {| enabled := true; base_url := "https://www.tripadvisor.com";
                       search_url := "https://www.tripadvisor.com/Hotels";
                       delay_between_requests := 3; max_retries := 3 |});
    ("vrbo", {| enabled := true; base_url := "https://www.vrbo.com";
                search_url := "https://www.vrbo.com/search";
                delay_between_requests := 2; max_retries := 3 |}) ].

(** [get_enabled_platforms] *)
Definition get_enabled_platforms : list string :=
  map fst (filter (fun nc => enabled (snd nc) = true) PLATFORMS).

(** [get_platform_config]: [cls.PLATFORMS.get(platform, {})]; the empty
    dict is [None]. *)
Definition get_platform_config (platform : string) : option PlatformConfig :=
  (fun r => snd (snd r)) <$> list_find (fun nc => fst nc = platform) PLATFORMS.

End Config.

(** ** crawlers/base_crawler.py *)

Module BaseCrawler.

(** What one [session.request] does: it answers with a status and a body,
    or it raises (connection error, timeout, ...). *)
Record ClientResponse := { resp_status : Z; resp_text : string }.

Inductive Attempt :=
| Answers (r : ClientResponse)
| Fails (e : string).

(** [asyncio.sleep] calls, in order, are the observable effect of the
    retry loop. *)
Definition Sleeps : Type := list Z.

Record BaseCrawler := {
  platform_name : string;
  config : option Config.PlatformConfig
}.

(** [BaseCrawler.__init__] *)
Definition init (name : string) : BaseCrawler :=
  {| platform_name := name; config := Config.get_platform_config name |}.

(** [self.config.get("max_retries", 3)] and
    [self.config.get("delay_between_requests", 2)] *)
Definition cfg_max_retries (c : BaseCrawler) : Z :=
  from_option Config.max_retries 3 (config c).
Definition cfg_delay (c : BaseCrawler) : Z :=
  from_option Config.delay_between_requests 2 (config c).

(** The body of [for attempt in range(max_retries)], from iteration
    [attempt] on, with [todo] iterations left. [net attempt] is what the
    network does at that iteration. *)
Fixpoint make_request_from (max_retries delay : Z) (net : Z -> Attempt)
    (todo : nat) (attempt : Z) (slept : Sleeps)
  : Result string (option ClientResponse) * Sleeps :=
  match todo with
  | O => (Ok None, slept)
  | S todo' =>
      let slept := if 0 <? attempt then slept ++ [delay] else slept in
      match net attempt with
      | Answers response =>
          if resp_status response =? 200 then (Ok (Some response), slept)
          else if resp_status response =? 429 then
            let wait_time := (attempt + 1) * delay * 2 in
            make_request_from max_retries delay net todo' (attempt + 1)
                              (slept ++ [wait_time])
          else
            make_request_from max_retries delay net todo' (attempt + 1) slept
      | Fails e =>
          if attempt =? max_retries - 1 then (Raise e, slept)
          else make_request_from max_retries delay net todo' (attempt + 1) slept
      end
  end.

(** [make_request] *)
Definition make_request (c : BaseCrawler) (net : Z -> Attempt)
  : Result string (option ClientResponse) * Sleeps :=
  let max_retries := cfg_max_retries c in
  let delay := cfg_delay c in
  make_request_from max_retries delay net (Z.to_nat max_retries) 0 [].

(** [get_page_content]: [None] when [make_request] returned [None]. *)
Definition get_page_content (c : BaseCrawler) (net : Z -> Attempt)
  : Result string (option string) :=
  match fst (make_request c net) with
  | Raise e => Raise e
  | Ok (Some response) => Ok (Some (resp_text response))
  | Ok None => Ok None
  end.

(** The characters [str.split()] and [str.strip()] treat as whitespace,
    among the ASCII ones. *)
Definition is_space (c : ascii) : bool :=
  let n := nat_of_ascii c in
  ((9 <=? n) && (n <=? 13))%nat || ((28 <=? n) && (n <=? 32))%nat.

(** [text.split()]: the maximal runs of non-whitespace characters. [word]
    is the run being read. *)
Fixpoint split_from (text : string) (word : string) : list string :=
  match text with
  | EmptyString => if truthy_str word then [word] else []
  | String c rest =>
      if is_space c
      then (if truthy_str word then word :: split_from rest "" else split_from rest "")
      else split_from rest (word +:+ String c "")
  end.

(** [" ".join(words)] *)
Fixpoint join_spaces (words : list string) : string :=
  match words with
  | [] => ""
  | [w] => w
  | w :: rest => w +:+ " " +:+ join_spaces rest
  end.

(** [_clean_text]: [" ".join(text.strip().split())]; stripping first
    does not change what [split()] returns. *)
Definition _clean_text (text : string) : string :=
  if truthy_str text then join_spaces (split_from text "") else "".

(** [get_page_soup]: [None] when there is no content or the content is
    the empty string; otherwise the parsed document, here the text itself. *)
Definition get_page_soup (c : BaseCrawler) (net : Z -> Attempt)
  : Result string (option string) :=
  match get_page_content c net with
  | Raise e => Raise e
  | Ok (Some content) => if truthy_str content then Ok (Some content) else Ok None
  | Ok None => Ok None
  end.

(** The ASCII decimal digits: what [\d] matches in ASCII text. *)
Definition is_digit (c : ascii) : bool :=
  let n := nat_of_ascii c in ((48 <=? n) && (n <=? 57))%nat.

(** [text.replace(',', '')] *)
Fixpoint remove_commas (text : string) : string :=
  match text with
  | EmptyString => EmptyString
  | String c rest =>
      if Ascii.eqb c ","%char then remove_commas rest
      else String c (remove_commas rest)
  end.

(** The longest prefix of digits of a text, and what follows it. *)
Fixpoint span_digits (text : string) : string * string :=
  match text with
  | EmptyString => (EmptyString, EmptyString)
  | String c rest =>
      if is_digit c
      then let '(digits, tail) := span_digits rest in (String c digits, tail)
      else (EmptyString, text)
  end.

(** [re.search(r'(\d+)', text)]: the leftmost run of digits, taken as long
    as it goes, together with the text after it. *)
Fixpoint search_digits (text : string) : option (string * string) :=
  match text with
  | EmptyString => None
  | String c rest => if is_digit c then Some (span_digits text) else search_digits rest
  end.

(** [re.search] with the pattern [\d+\.?\d*] (in one group): digits, a dot if
    one follows, and the digits after the dot. On a text without commas this
    is also what the pattern [[\d,]+\.?\d*] matches. *)
Definition search_decimal (text : string) : option string :=
  match search_digits text with
  | None => None
  | Some (whole, tail) =>
      match tail with
      | String "."%char tail' => Some (whole +:+ "." +:+ fst (span_digits tail'))
      | _ => Some whole
      end
  end.

(** The value of a text of digits. *)
Definition int_of_digits (digits : string) : Z :=
  let fix go (acc : Z) (s : string) : Z :=
    match s with
    | EmptyString => acc
    | String c rest => go (10 * acc + Z.of_nat (nat_of_ascii c - 48)) rest
    end in
  go 0 digits.

Section Parsing.

(** [float] is Python's conversion of a matched decimal literal; it does
    not raise on the texts [search_decimal] returns. [max_str_digits] is
    the interpreter's limit on the length of a text given to [int] (4300 by
    default since Python 3.11, 0 for no limit): a longer text makes [int]
    raise [ValueError]. *)
Variable float : string -> Q.
Variable max_str_digits : nat.

(** [int(digits)] *)
Definition int (digits : string) : Result string Z :=
  if ((0 <? max_str_digits) && (max_str_digits <? String.length digits))%nat
  then Raise "Exceeds the limit for integer string conversion"
  else Ok (int_of_digits digits).

(** [_extract_price] *)
Definition _extract_price (price_text : string) : option Q :=
  if truthy_str price_text then
    match search_decimal (remove_commas price_text) with
    | Some matched => Some (float matched)
    | None => None
    end
  else None.

(** [_extract_rating]: [min(max(rating, 0), 10)], where [max(a, b)] is [b]
    only when [b > a] and [min(a, b)] is [b] only when [b < a]. *)
Definition _extract_rating (rating_text : string) : option Q :=
  if truthy_str rating_text then
    match search_decimal rating_text with
    | Some matched =>
        let rating := float matched in
        let raised := if Qltb rating 0%Q then 0%Q else rating in
        Some (if Qltb 10%Q raised then 10%Q else raised)
    | None => None
    end
  else None.

(** [_extract_review_count]: a [ValueError] of [int] is swallowed. *)
Definition _extract_review_count (review_text : string) : option Z :=
  if truthy_str review_text then
    match search_digits (remove_commas review_text) with
    | Some (matched, _) =>
        match int matched with
        | Ok count => Some count
        | Raise _ => None
        end
    | None => None
    end
  else None.

End Parsing.

End BaseCrawler.

(** ** crawlers/airbnb_crawler.py *)

Module AirbnbCrawler.

(** How a module-level name evaluates inside this module. *)
Inductive Binding :=
| Unbound
| Bound (max_price_results_per_platform : Z).

(** [crawlers/airbnb_crawler.py] imports [BaseCrawler] and [SearchResult]
    and nothing from [config]: evaluating [Config] there raises
    [NameError]. *)
Definition Config_binding : Binding := Unbound.

(** [xs[:n]] *)
Definition slice_to {A : Type} (n : Z) (xs : list A) : list A :=
  if 0 <=? n then take (Z.to_nat n) xs
  else take (length xs - Z.to_nat (- n))%nat xs.

Section Extraction.

(** The document model of BeautifulSoup is not part of the embedding: a
    listing element is an abstract value, the two [find_all] selectors
    and [_extract_listing_data] are functions over it, and URL encoding
    is a function of the query and the parameters. *)
Variable Listing : Type.
Variable find_all_card_container : string -> list Listing.
Variable find_all_class_listing : string -> list Listing.
Variable _extract_listing_data : Listing -> string -> Result string (option SearchResult).
Variable quote_plus : string -> string.
Variable urlencode : list (string * (string + Z)) -> string.

(** The loop [for listing in ...: try: ... except Exception: continue],
    appending to [results]. *)
Fixpoint extract_each (listings : list Listing) (search_url : string)
    (results : list SearchResult) : list SearchResult :=
  match listings with
  | [] => results
  | listing :: rest =>
      match _extract_listing_data listing search_url with
      | Ok (Some result) => extract_each rest search_url (results ++ [result])
      | Ok None => extract_each rest search_url results
      | Raise _ => extract_each rest search_url results
      end
  end.

(** The [try] block of [search_properties]: the value of [results] when
    the block is left, and how it is left. *)
Definition search_try (b : Binding) (c : BaseCrawler.BaseCrawler)
    (net : string -> Z -> BaseCrawler.Attempt)
    (hotel_name city checkin_date checkout_date : string) (guests : Z)
  : list SearchResult * Result string unit :=
  let results : list SearchResult := [] in
  let search_query := hotel_name +:+ " " +:+ city in
  let encoded_query := quote_plus search_query in
  let search_url := "https://www.airbnb.com/s/" +:+ encoded_query in
  let params := [ ("checkin", inl checkin_date); ("checkout", inl checkout_date);
                  ("adults", inr guests); ("children", inr 0);
                  ("infants", inr 0); ("pets", inr 0) ] in
  let search_url := search_url +:+ "?" +:+ urlencode params in
  match BaseCrawler.get_page_soup c (net search_url) with
  | Raise e => (results, Raise e)
  | Ok None => (results, Ok tt)
  | Ok (Some soup) =>
      let listings := find_all_card_container soup in
      let listings :=
        match listings with
        | [] => find_all_class_listing soup
        | _ :: _ => listings
        end in
      match b with
      | Unbound => (results, Raise "name 'Config' is not defined")
      | Bound n => (extract_each (slice_to n listings) search_url results, Ok tt)
      end
  end.

(** [search_properties]: whatever happens inside the [try], the
    function ends with [return results]. *)
Definition search_properties_under (b : Binding) (c : BaseCrawler.BaseCrawler)
    (net : string -> Z -> BaseCrawler.Attempt)
    (hotel_name city checkin_date checkout_date : string) (guests : Z)
  : Result string (list SearchResult) :=
  match search_try b c net hotel_name city checkin_date checkout_date guests with
  | (results, Ok _) => Ok results
  | (results, Raise _) => Ok results
  end.

Definition search_properties :=
  search_properties_under Config_binding.

End Extraction.

(** What the queries of [_extract_listing_data] find in a listing element.
    For a [find] whose result is only asked for its text, the text
    ([get_text()]) of the element found, if one is found; for the link and
    the image, the attribute read from the element found; for the
    [find_all] of the amenity class, the texts of the elements found. *)
Record ListingElement := {
  name_by_testid : option string;
  name_h3 : option string;
  name_h2 : option string;
  price_by_testid : option string;
  price_by_class : option string;
  rating_by_testid : option string;
  rating_by_class : option string;
  reviews_by_testid : option string;
  reviews_by_class : option string;
  link_href : option (option string);
  img_src : option (option string);
  amenity_texts : list string
}.

(** [a or b] on the results of two [find] calls, and the fallback
    [x = find(...); if not x: x = ...]. *)
Definition or_else {A : Type} (a b : option A) : option A :=
  match a with Some _ => a | None => b end.

(** The loop over [amenity_elems]: the cleaned texts that are not empty. *)
Fixpoint clean_amenities (texts : list string) : list string :=
  match texts with
  | [] => []
  | text :: rest =>
      let amenity_text := BaseCrawler._clean_text text in
      if truthy_str amenity_text then amenity_text :: clean_amenities rest
      else clean_amenities rest
  end.

(** [_extract_listing_data]: no query of the model raises, so the
    [except] clause is never entered; [now] is the default of
    [fetched_at]. The [base_url] argument is not used, as in the source. *)
Definition _extract_listing_data (float : string -> Q) (max_str_digits : nat)
    (now : Z) (listing_element : ListingElement) (base_url : string)
  : option SearchResult :=
  let name_elem := or_else (name_by_testid listing_element)
                     (or_else (name_h3 listing_element) (name_h2 listing_element)) in
  let property_name :=
    match name_elem with
    | Some text => BaseCrawler._clean_text text
    | None => "Unknown Property"
    end in
  let price_elem := or_else (price_by_testid listing_element)
                      (price_by_class listing_element) in
  let price_text := default "" price_elem in
  match BaseCrawler._extract_price float price_text with
  | None => None
  | Some price =>
      if Qeq_bool price 0 then None
      else
        let rating_elem := or_else (rating_by_testid listing_element)
                             (rating_by_class listing_element) in
        let rating := BaseCrawler._extract_rating float (default "" rating_elem) in
        let review_elem := or_else (reviews_by_testid listing_element)
                             (reviews_by_class listing_element) in
        let review_count :=
          BaseCrawler._extract_review_count max_str_digits (default "" review_elem) in
        let url :=
          match link_href listing_element with
          | Some (Some href) =>
              if truthy_str href then Some ("https://www.airbnb.com" +:+ href) else None
          | _ => None
          end in
        let image_url :=
          match img_src listing_element with
          | Some src => src
          | None => None
          end in
        let amenities := clean_amenities (amenity_texts listing_element) in
        Some {| platform := "airbnb";
                property_name := property_name;
                price := price;
                currency := "USD";
                availability := true;
                url := url;
                rating := rating;
                review_count := review_count;
                amenities := match amenities with [] => None | _ :: _ => Some amenities end;
                image_url := image_url;
                fetched_at := now |}
  end.

End AirbnbCrawler.

(** ** database.py *)

Module Database.

(** A Redis string value together with the instant at which [SETEX] makes
    it expire. The JSON text written by [_serialize_for_cache] is
    represented by the record it encodes, and [_deserialize_from_cache]
    gives that record back. *)
Record CacheEntry := { entry_value : CrawledPriceRecord; entry_expires_at : Z }.

(** [DatabaseService]: the two clients and what their servers hold. A
    client that is not up raises on every command. A MongoDB document is
    represented by the record whose [dict()] it is, in insertion order. *)
Record DatabaseService := {
  redis_up : bool;
  redis_keys : gmap string CacheEntry;
  mongo_up : bool;
  mongo_collection : list CrawledPriceRecord
}.

Definition set_redis_keys (ks : gmap string CacheEntry) (db : DatabaseService) :=
  {| redis_up := redis_up db; redis_keys := ks;
     mongo_up := mongo_up db; mongo_collection := mongo_collection db |}.

Definition set_mongo_collection (docs : list CrawledPriceRecord) (db : DatabaseService) :=
  {| redis_up := redis_up db; redis_keys := redis_keys db;
     mongo_up := mongo_up db; mongo_collection := docs |}.

(** [get_cache_key] *)
Definition get_cache_key (hotel_name city country : string)
    (checkin_date checkout_date : date) (state : option string) : string :=
  let cache_key := {| key_hotel_name := hotel_name; key_city := city;
                      key_country := country; key_checkin_date := checkin_date;
                      key_checkout_date := checkout_date; key_state := state |} in
  to_key cache_key.

(** [redis_client.get(key)] at instant [now]. *)
Definition redis_get (db : DatabaseService) (now : Z) (key : string)
  : Result string (option CrawledPriceRecord) :=
  if redis_up db then
    match redis_keys db !! key with
    | Some e => if now <? entry_expires_at e then Ok (Some (entry_value e)) else Ok None
    | None => Ok None
    end
  else Raise "Error connecting to Redis".

(** [redis_client.setex(key, ttl, value)] at instant [now]. *)
Definition redis_setex (db : DatabaseService) (now : Z) (key : string) (ttl : Z)
    (value : CrawledPriceRecord) : Result string DatabaseService :=
  if redis_up db then
    Ok (set_redis_keys
          (<[key := {| entry_value := value; entry_expires_at := now + ttl |}]>
             (redis_keys db)) db)
  else Raise "Error connecting to Redis".

(** [get_cached_prices]: any exception is logged and turned into [None]. *)
Definition get_cached_prices (db : DatabaseService) (now : Z)
    (hotel_name city country : string) (checkin_date checkout_date : date)
    (state : option string) : option CrawledPriceRecord :=
  let cache_key := get_cache_key hotel_name city country checkin_date checkout_date state in
  match redis_get db now cache_key with
  | Ok (Some cached_data) => Some cached_data
  | Ok None => None
  | Raise _ => None
  end.

(** [cache_prices] *)
Definition cache_prices (db : DatabaseService) (now : Z)
    (price_record : CrawledPriceRecord) : DatabaseService * bool :=
  let cache_key := get_cache_key (rec_hotel_name price_record) (rec_city price_record)
                     (rec_country price_record) (rec_checkin_date price_record)
                     (rec_checkout_date price_record) (rec_state price_record) in
  match redis_setex db now cache_key Config.CACHE_TTL price_record with
  | Ok db' => (db', true)
  | Raise _ => (db, false)
  end.

(** [save_prices_to_mongodb]: [insert_one] appends the document. *)
Definition save_prices_to_mongodb (db : DatabaseService)
    (price_record : CrawledPriceRecord) : DatabaseService * bool :=
  if mongo_up db
  then (set_mongo_collection (mongo_collection db ++ [price_record]) db, true)
  else (db, false).

(** The filter built by [get_prices_from_mongodb]: the five required
    fields, and ["state"] only when [state] is truthy. *)
Definition matches_query (hotel_name city country : string)
    (checkin_date checkout_date : date) (state : option string)
    (doc : CrawledPriceRecord) : bool :=
  bool_decide (rec_hotel_name doc = hotel_name)
  && bool_decide (rec_city doc = city)
  && bool_decide (rec_country doc = country)
  && bool_decide (Date.isoformat (rec_checkin_date doc) = Date.isoformat checkin_date)
  && bool_decide (Date.isoformat (rec_checkout_date doc) = Date.isoformat checkout_date)
  && (if truthy_opt_str state then bool_decide (rec_state doc = state) else true).

(** [find_one(query, sort=[("crawled_at", -1)])] over the matching
    documents: one with the greatest [crawled_at]; among equals the one
    met first is kept. *)
Fixpoint latest (docs : list CrawledPriceRecord) (best : option CrawledPriceRecord)
  : option CrawledPriceRecord :=
  match docs with
  | [] => best
  | d :: rest =>
      match best with
      | None => latest rest (Some d)
      | Some b => if rec_crawled_at b <? rec_crawled_at d
                  then latest rest (Some d) else latest rest best
      end
  end.

(** [get_prices_from_mongodb]: any exception is logged and turned into
    [None]. *)
Definition get_prices_from_mongodb (db : DatabaseService)
    (hotel_name city country : string) (checkin_date checkout_date : date)
    (state : option string) : option CrawledPriceRecord :=
  if mongo_up db then
    latest (filter (fun d => matches_query hotel_name city country checkin_date
                               checkout_date state d = true)
                   (mongo_collection db)) None
  else None.

(** The grouping loop of [save_search_results]: a dict from platform to
    the list of its results, keys in first-occurrence order. *)
Fixpoint append_to_platform (p : string) (r : SearchResult)
    (groups : list (string * list SearchResult)) : list (string * list SearchResult) :=
  match groups with
  | [] => [(p, [r])]
  | (q, rs) :: rest =>
      if bool_decide (q = p) then (q, rs ++ [r]) :: rest
      else (q, rs) :: append_to_platform p r rest
  end.

Definition group_by_platform (results : list SearchResult)
  : list (string * list SearchResult) :=
  foldl (fun groups r => append_to_platform (platform r) r groups) [] results.

(** [save_search_results]: both writes are attempted; the answer is
    [True] only when both succeeded. *)
Definition save_search_results (db : DatabaseService) (now : Z)
    (hotel_name city country : string) (checkin_date checkout_date : date)
    (state : option string) (latitude longitude : option Q) (job_id : string)
    (results : list SearchResult) : DatabaseService * bool :=
  let platform_prices := group_by_platform results in
  let price_record :=
    {| rec_hotel_name := hotel_name; rec_city := city; rec_country := country;
       rec_checkin_date := checkin_date; rec_checkout_date := checkout_date;
       rec_state := state; rec_latitude := latitude; rec_longitude := longitude;
       rec_platform_prices := platform_prices;
       rec_total_results := length results;
       rec_crawled_at := now; rec_job_id := job_id |} in
  let '(db1, mongo_success) := save_prices_to_mongodb db price_record in
  let '(db2, cache_success) := cache_prices db1 now price_record in
  (db2, mongo_success && cache_success).

End Database.

(** ** crawler_manager.py *)

Module CrawlerManager.

(** The [search_params] dict. *)
Record SearchParams := {
  sp_hotel_name : string;
  sp_city : string;
  sp_checkin_date : string;
  sp_checkout_date : string;
  sp_guests : Z;
  sp_state : option string;
  sp_country : string;
  sp_latitude : option Q;
  sp_longitude : option Q
}.

(** What the block [async with crawler: results = await
    crawler.search_properties(...)] does for one adapter: it yields a list
    of records, it yields some other value, or an exception is raised
    inside it (by [__aenter__], by the search or by [__aexit__]). *)
Inductive Outcome :=
| Returns (records : list SearchResult)
| ReturnsOther
| Raises (e : string).

(** An adapter, seen from the manager. *)
Record Crawler := { search_properties : SearchParams -> Outcome }.

(** [self.crawlers]: a dict from platform name to adapter, iterated in
    insertion order. *)
Record CrawlerManager := { crawlers : list (string * Crawler) }.

(** One entry of the list that [asyncio.gather(..., return_exceptions=True)]
    gives back. *)
Inductive Gathered :=
| GList (records : list SearchResult)
| GOther
| GException (e : string).

(** [_search_platform]: an exception is logged and replaced by [[]]. *)
Definition _search_platform (crawler : Crawler) (search_params : SearchParams)
  : Gathered :=
  match search_properties crawler search_params with
  | Returns results => GList results
  | ReturnsOther => GOther
  | Raises _ => GList []
  end.

(** [date.strftime('%Y-%m-%d')] *)
Definition strftime_Ymd (d : date) : string := Date.isoformat d.

Definition make_search_params (request : PriceRequest) : SearchParams :=
  {| sp_hotel_name := hotel_name request;
     sp_city := city request;
     sp_checkin_date := strftime_Ymd (checkin_date request);
     sp_checkout_date := strftime_Ymd (checkout_date request);
     sp_guests := 1;
     sp_state := state request;
     sp_country := country request;
     sp_latitude := latitude request;
     sp_longitude := longitude request |}.

(** The loop over the gathered results, extending [all_results]. *)
Fixpoint process_results (gathered : list Gathered) (all_results : list SearchResult)
  : list SearchResult :=
  match gathered with
  | [] => all_results
  | GException _ :: rest => process_results rest all_results
  | GList result :: rest => process_results rest (all_results ++ result)
  | GOther :: rest => process_results rest all_results
  end.

(** [search_all_platforms] *)
Definition search_all_platforms (self : CrawlerManager) (request : PriceRequest)
  : list SearchResult :=
  let all_results : list SearchResult := [] in
  let search_params := make_search_params request in
  let tasks := map (fun pc => _search_platform (snd pc) search_params) (crawlers self) in
  match tasks with
  | [] => all_results
  | _ :: _ => process_results tasks all_results
  end.

(** [get_available_platforms] *)
Definition get_available_platforms (self : CrawlerManager) : list string :=
  map fst (crawlers self).

End CrawlerManager.

(** ** main.py *)

(** Python values that reach [json.dumps]. *)
#[warnings="-register-all"]
Inductive PyVal :=
| PyNone
| PyBool (b : bool)
| PyStr (s : string)
| PyInt (n : Z)
| PyFloat (x : Q)
| PyDatetime (t : Z)
| PyDict (items : list (string * PyVal)).

(** What the default [json.JSONEncoder] accepts: it has no encoding for
    [datetime] and raises [TypeError] on one, at any depth. *)
Fixpoint json_encodable (v : PyVal) : bool :=
  match v with
  | PyDatetime _ => false
  | PyDict items =>
      forallb (fun kv => match kv with (_, x) => json_encodable x end) items
  | _ => true
  end.

(** [json.dumps] with the default encoder, given the text of the values it
    accepts. *)
Definition json_dumps_default (json_text : PyVal -> string) (v : PyVal)
  : Result string string :=
  if json_encodable v then Ok (json_text v)
  else Raise "Object of type datetime is not JSON serializable".

Definition py_opt {A : Type} (f : A -> PyVal) (o : option A) : PyVal :=
  match o with Some a => f a | None => PyNone end.

Module Main.

(** An entry of [active_jobs]: a dict with these keys; the last three are
    absent until they are assigned. *)
Record Job := {
  status : string;
  progress : Q;
  total_platforms : nat;
  completed_platforms : nat;
  results : list SearchResult;
  created_at : Z;
  request : PriceRequest;
  completed_at : option Z;
  execution_time : option Z;
  error : option string
}.

Definition set_status (v : string) (j : Job) : Job :=
  {| status := v; progress := progress j; total_platforms := total_platforms j;
     completed_platforms := completed_platforms j; results := results j;
     created_at := created_at j; request := request j;
     completed_at := completed_at j; execution_time := execution_time j;
     error := error j |}.

Definition set_progress (v : Q) (j : Job) : Job :=
  {| status := status j; progress := v; total_platforms := total_platforms j;
     completed_platforms := completed_platforms j; results := results j;
     created_at := created_at j; request := request j;
     completed_at := completed_at j; execution_time := execution_time j;
     error := error j |}.

Definition set_completed_platforms (v : nat) (j : Job) : Job :=
  {| status := status j; progress := progress j; total_platforms := total_platforms j;
     completed_platforms := v; results := results j;
     created_at := created_at j; request := request j;
     completed_at := completed_at j; execution_time := execution_time j;
     error := error j |}.

Definition set_results (v : list SearchResult) (j : Job) : Job :=
  {| status := status j; progress := progress j; total_platforms := total_platforms j;
     completed_platforms := completed_platforms j; results := v;
     created_at := created_at j; request := request j;
     completed_at := completed_at j; execution_time := execution_time j;
     error := error j |}.

Definition set_completed_at (v : Z) (j : Job) : Job :=
  {| status := status j; progress := progress j; total_platforms := total_platforms j;
     completed_platforms := completed_platforms j; results := results j;
     created_at := created_at j; request := request j;
     completed_at := Some v; execution_time := execution_time j;
     error := error j |}.

Definition set_execution_time (v : Z) (j : Job) : Job :=
  {| status := status j; progress := progress j; total_platforms := total_platforms j;
     completed_platforms := completed_platforms j; results := results j;
     created_at := created_at j; request := request j;
     completed_at := completed_at j; execution_time := Some v;
     error := error j |}.

Definition set_error (v : string) (j : Job) : Job :=
  {| status := status j; progress := progress j; total_platforms := total_platforms j;
     completed_platforms := completed_platforms j; results := results j;
     created_at := created_at j; request := request j;
     completed_at := completed_at j; execution_time := execution_time j;
     error := Some v |}.

(** A connected client. [ws_job_id] is the [job_id] of the path
    [/ws/{job_id}] it connected to; [ws_open] tells whether [send_text]
    succeeds; [ws_received] is what it has been sent. *)
Record WebSocket := {
  ws_id : nat;
  ws_job_id : string;
  ws_open : bool;
  ws_received : list string
}.

(** The module globals, the process clock read by [datetime.now()], the
    number of ids drawn so far by [generate_job_id], and the platforms
    whose adapter has been invoked (kept for the statements only). *)
Record World := {
  clock : Z;
  crawler_manager : option CrawlerManager.CrawlerManager;
  db_service : option Database.DatabaseService;
  active_connections : list WebSocket;
  active_jobs : gmap string Job;
  uuids_drawn : nat;
  adapter_calls : list string
}.

Definition set_clock (v : Z) (w : World) : World :=
  {| clock := v; crawler_manager := crawler_manager w; db_service := db_service w;
     active_connections := active_connections w; active_jobs := active_jobs w;
     uuids_drawn := uuids_drawn w; adapter_calls := adapter_calls w |}.

Definition set_db_service (v : option Database.DatabaseService) (w : World) : World :=
  {| clock := clock w; crawler_manager := crawler_manager w; db_service := v;
     active_connections := active_connections w; active_jobs := active_jobs w;
     uuids_drawn := uuids_drawn w; adapter_calls := adapter_calls w |}.

Definition set_active_connections (v : list WebSocket) (w : World) : World :=
  {| clock := clock w; crawler_manager := crawler_manager w; db_service := db_service w;
     active_connections := v; active_jobs := active_jobs w;
     uuids_drawn := uuids_drawn w; adapter_calls := adapter_calls w |}.

Definition set_active_jobs (v : gmap string Job) (w : World) : World :=
  {| clock := clock w; crawler_manager := crawler_manager w; db_service := db_service w;
     active_connections := active_connections w; active_jobs := v;
     uuids_drawn := uuids_drawn w; adapter_calls := adapter_calls w |}.

Definition set_uuids_drawn (v : nat) (w : World) : World :=
  {| clock := clock w; crawler_manager := crawler_manager w; db_service := db_service w;
     active_connections := active_connections w; active_jobs := active_jobs w;
     uuids_drawn := v; adapter_calls := adapter_calls w |}.

Definition set_adapter_calls (v : list string) (w : World) : World :=
  {| clock := clock w; crawler_manager := crawler_manager w; db_service := db_service w;
     active_connections := active_connections w; active_jobs := active_jobs w;
     uuids_drawn := uuids_drawn w; adapter_calls := v |}.

(** [active_jobs[job_id][key] = value] on a registered job. *)
Definition update_job (job_id : string) (f : Job -> Job) (w : World) : World :=
  set_active_jobs (alter f job_id (active_jobs w)) w.

(** Time passing between two requests. *)
Definition elapse (seconds : Z) (w : World) : World :=
  set_clock (clock w + seconds) w.

Record HTTPException := { status_code : Z; detail : string }.

(** What a handler call ends with: the handler's exception, or the 422
    answer of the framework when the body does not validate. *)
Inductive HttpError :=
| RequestValidationError (errors : list FieldError)
| HandlerError (e : HTTPException).

(** The dict returned by [search_properties]; the last two keys exist
    only in the cached answer. *)
Record SearchResponse := {
  r_job_id : string;
  r_message : string;
  r_status : string;
  r_cached : bool;
  r_cached_at : option Z;
  r_total_results : option nat
}.

(** A task handed to [background_tasks.add_task(run_search_job, ...)]. *)
Definition BackgroundTask : Type := string * PriceRequest.

Section Handlers.

(** [uuid4 n] is the text of the [n]-th identifier that [uuid.uuid4()]
    produces in this run, and [json_dumps] is [json.dumps]. *)
Variable uuid4 : nat -> string.
Variable json_dumps : PyVal -> Result string string.

(** [generate_job_id] *)
Definition generate_job_id (w : World) : string * World :=
  (uuid4 (uuids_drawn w), set_uuids_drawn (S (uuids_drawn w)) w).

(** [search_properties], the handler of [POST /search]. *)
Definition search_properties (request : PriceRequest) (w : World)
  : Result HTTPException SearchResponse * World * list BackgroundTask :=
  match crawler_manager w with
  | None => (Raise {| status_code := 503;
                      detail := "Crawler manager not initialized" |}, w, [])
  | Some manager =>
  match db_service w with
  | None => (Raise {| status_code := 503;
                      detail := "Database service not initialized" |}, w, [])
  | Some db =>
      let cached_result :=
        Database.get_cached_prices db (clock w) (hotel_name request) (city request)
          (country request) (checkin_date request) (checkout_date request)
          (state request) in
      match cached_result with
      | Some cached =>
          (Ok {| r_job_id := "cached";
                 r_message := "Results retrieved from cache";
                 r_status := "completed";
                 r_cached := true;
                 r_cached_at := Some (rec_crawled_at cached);
                 r_total_results := Some (rec_total_results cached) |}, w, [])
      | None =>
          let '(job_id, w1) := generate_job_id w in
          let job :=
            {| status := "pending";
               progress := 0%Q;
               total_platforms :=
                 length (CrawlerManager.get_available_platforms manager);
               completed_platforms := 0%nat;
               results := [];
               created_at := clock w1;
               request := request;
               completed_at := None;
               execution_time := None;
               error := None |} in
          let w2 := set_active_jobs (<[job_id := job]> (active_jobs w1)) w1 in
          (Ok {| r_job_id := job_id;
                 r_message := "Search job started";
                 r_status := "pending";
                 r_cached := false;
                 r_cached_at := None;
                 r_total_results := None |}, w2, [(job_id, request)])
      end
  end
  end.

(** [PriceMessage(...).dict()] for one result, with the ["type"] key
    added by [send_results_to_websockets]. *)
Definition price_update (job_id : string) (request : PriceRequest)
    (result : SearchResult) : PyVal :=
  PyDict
    [ ("group_id", PyStr job_id);
      ("property_title", PyStr (property_name result));
      ("city", PyStr (city request));
      ("state", py_opt PyStr (state request));
      ("country", PyStr (country request));
      ("latitude", py_opt PyFloat (latitude request));
      ("longitude", py_opt PyFloat (longitude request));
      ("platform", PyStr (platform result));
      ("price_data",
        PyDict [ ("currency", PyStr (currency result));
                 ("amount", PyFloat (price result));
                 ("availability", PyBool (availability result));
                 ("timestamp", PyDatetime (fetched_at result));
                 ("platform_specific_data", PyNone) ]);
      ("type", PyStr "price_update") ].

(** [WebSocket.send_text] *)
Definition send_text (text : string) (connection : WebSocket)
  : Result string WebSocket :=
  if ws_open connection then
    Ok {| ws_id := ws_id connection; ws_job_id := ws_job_id connection;
          ws_open := true;
          ws_received := ws_received connection ++ [text] |}
  else Raise "WebSocket is not connected".

(** [try: await connection.send_text(json.dumps(message_data))
    except Exception: logger.error(...)] *)
Definition try_send (message_data : PyVal) (connection : WebSocket) : WebSocket :=
  match json_dumps message_data with
  | Raise _ => connection
  | Ok text =>
      match send_text text connection with
      | Ok connection' => connection'
      | Raise _ => connection
      end
  end.

(** [send_results_to_websockets] *)
Definition send_results_to_websockets (job_id : string)
    (results : list SearchResult) (w : World) : World :=
  match active_jobs w !! job_id with
  | None => w
  | Some job =>
      let request := request job in
      foldl (fun w result =>
               let message_data := price_update job_id request result in
               set_active_connections
                 (map (try_send message_data) (active_connections w)) w)
            w results
  end.

(** The first two statements of [websocket_endpoint]: the connection
    is accepted and appended to [active_connections]. The list does not
    record the job the client asked for. *)
Definition websocket_connect (id : nat) (job_id : string) (w : World) : World :=
  let websocket := {| ws_id := id; ws_job_id := job_id; ws_open := true;
                      ws_received := [] |} in
  set_active_connections (active_connections w ++ [websocket]) w.

(** The [finally] clause of [websocket_endpoint]. *)
Definition websocket_disconnect (id : nat) (w : World) : World :=
  set_active_connections
    (filter (fun c => ws_id c ≠ id) (active_connections w)) w.

(** The successive worlds of [run_search_job], one per statement that
    writes to the globals. A job that is not registered makes the first
    assignment raise [KeyError], and so does the handler: nothing is
    written. An uninitialised manager makes the call of
    [search_all_platforms] raise, which the handler records. *)
Definition run_search_job_trace (job_id : string) (request : PriceRequest)
    (w : World) : list World :=
  let start_time := clock w in
  match active_jobs w !! job_id with
  | None => []
  | Some _ =>
      let w1 := update_job job_id (set_status "running") w in
      match crawler_manager w1 with
      | None =>
          let w2 := update_job job_id (set_status "failed") w1 in
          let w3 := update_job job_id
                      (set_error "'NoneType' object has no attribute 'search_all_platforms'")
                      w2 in
          let w4 := update_job job_id (set_execution_time (clock w3 - start_time)) w3 in
          [w1; w2; w3; w4]
      | Some manager =>
          let all_results := CrawlerManager.search_all_platforms manager request in
          let w2 := set_adapter_calls
                      (adapter_calls w1 ++ CrawlerManager.get_available_platforms manager)
                      w1 in
          let w3 :=
            match db_service w2 with
            | Some db =>
                let '(db', save_success) :=
                  Database.save_search_results db (clock w2) (hotel_name request)
                    (city request) (country request) (checkin_date request)
                    (checkout_date request) (state request) (latitude request)
                    (longitude request) job_id all_results in
                set_db_service (Some db') w2
            | None => w2
            end in
          let w4 := update_job job_id (set_results all_results) w3 in
          let w5 := update_job job_id (set_status "completed") w4 in
          let w6 := update_job job_id (set_progress 100%Q) w5 in
          let w7 := update_job job_id
                      (set_completed_platforms
                         (length (CrawlerManager.get_available_platforms manager)))
                      w6 in
          let w8 := update_job job_id (set_completed_at (clock w7)) w7 in
          let w9 := update_job job_id (set_execution_time (clock w8 - start_time)) w8 in
          let w10 := send_results_to_websockets job_id all_results w9 in
          [w1; w2; w3; w4; w5; w6; w7; w8; w9; w10]
      end
  end.

(** [run_search_job]: the world it leaves behind. *)
Definition run_search_job (job_id : string) (request : PriceRequest)
    (w : World) : World :=
  default w (last (run_search_job_trace job_id request w)).

(** The framework runs the tasks of a request after its response. *)
Definition run_background_tasks (tasks : list BackgroundTask) (w : World) : World :=
  foldl (fun w task => run_search_job (fst task) (snd task) w) w tasks.

(** [POST /search] as the framework serves it: the body is validated
    into a [PriceRequest] before the handler is called. *)
Definition post_search (raw : RawPriceRequest) (w : World)
  : Result HttpError SearchResponse * World :=
  match PriceRequest_init raw with
  | Raise errors => (Raise (RequestValidationError errors), w)
  | Ok request =>
      match search_properties request w with
      | (Ok response, w1, tasks) => (Ok response, run_background_tasks tasks w1)
      | (Raise e, w1, tasks) => (Raise (HandlerError e), run_background_tasks tasks w1)
      end
  end.

(** The values of the job [job_id] along a list of worlds. *)
Definition job_history (job_id : string) (ws : list World) : list Job :=
  omap (fun w => active_jobs w !! job_id) ws.


(** The [JobResult] answer of [GET /job/{job_id}/results]. *)
Record JobResult := {
  jr_job_id : string;
  jr_search_criteria : PriceRequest;
  jr_results : list SearchResult;
  jr_total_results : nat;
  jr_completed_at : Z;
  jr_execution_time : Z
}.

(** [get_job_results] *)
Definition get_job_results (job_id : string) (w : World)
  : Result HTTPException JobResult :=
  match active_jobs w !! job_id with
  | None => Raise {| status_code := 404; detail := "Job not found" |}
  | Some job =>
      if bool_decide (status job ≠ "completed")
      then Raise {| status_code := 400; detail := "Job not completed yet" |}
      else Ok {| jr_job_id := job_id;
                 jr_search_criteria := request job;
                 jr_results := results job;
                 jr_total_results := length (results job);
                 jr_completed_at := default (clock w) (completed_at job);
                 jr_execution_time := default 0 (execution_time job) |}
  end.

(** The answer of [GET /prices/{hotel_name}]: where the record came
    from, and the record. *)
Inductive StoredPrices :=
| FromCache (data : CrawledPriceRecord)
| FromMongodb (data : CrawledPriceRecord).

(** [get_stored_prices], after the two dates were parsed. *)
Definition get_stored_prices (hotel_name city country : string)
    (checkin checkout : date) (state : option string) (w : World)
  : Result HTTPException StoredPrices :=
  match db_service w with
  | None => Raise {| status_code := 503;
                     detail := "Database service not initialized" |}
  | Some db =>
      match Database.get_cached_prices db (clock w) hotel_name city country
              checkin checkout state with
      | Some cached_result => Ok (FromCache cached_result)
      | None =>
          match Database.get_prices_from_mongodb db hotel_name city country
                  checkin checkout state with
          | Some mongo_result => Ok (FromMongodb mongo_result)
          | None =>
              (* the 404 raised inside the [try] is caught by
                 [except Exception] and answered as a 500 *)
              Raise {| status_code := 500; detail := "Internal server error" |}
          end
      end
  end.

End Handlers.

End Main.

(** ** Formatting of names, as the specification speaks of it *)





(** [state] as [to_key] reads it: an empty text counts as no state. *)
Definition effective_state (o : option string) : option string :=
  if truthy_opt_str o then o else None.

(** ** Vocabulary of the statements, and a worked scenario *)

Definition paris_request (name town : string) (lat : option Q) (st : option string)
  : PriceRequest :=
  {| hotel_name := name; checkin_date := Date.mk 2025 6 1;
     checkout_date := Date.mk 2025 6 3; city := town; state := st;
     country := "France"; latitude := lat; longitude := None |}.

(** An attempt succeeds when it is answered with status 200. *)
Definition succeeds (a : BaseCrawler.Attempt) : bool :=
  match a with
  | BaseCrawler.Answers r => BaseCrawler.resp_status r =? 200
  | BaseCrawler.Fails _ => false
  end.

(** What the last attempt leaves the caller with, when no attempt succeeded. *)
Definition exhausted_result (last_attempt : BaseCrawler.Attempt)
  : Result string (option BaseCrawler.ClientResponse) :=
  match last_attempt with
  | BaseCrawler.Fails e => Raise e
  | BaseCrawler.Answers _ => Ok None
  end.

Definition always_answers (code : Z) : Z -> BaseCrawler.Attempt :=
  fun _ => BaseCrawler.Answers {| BaseCrawler.resp_status := code;
                                  BaseCrawler.resp_text := "" |}.

Definition always_fails (e : string) : Z -> BaseCrawler.Attempt :=
  fun _ => BaseCrawler.Fails e.

(** The record a listing contributes: none when the extraction returns
    [None] or raises. *)
Definition usable {Listing : Type}
    (_extract_listing_data : Listing -> string -> Result string (option SearchResult))
    (search_url : string) (listing : Listing) : option SearchResult :=
  match _extract_listing_data listing search_url with
  | Ok (Some result) => Some result
  | Ok None => None
  | Raise _ => None
  end.

(** The records an adapter contributes to the aggregate. *)
Definition contribution (params : CrawlerManager.SearchParams)
    (crawler : CrawlerManager.Crawler) : list SearchResult :=
  match CrawlerManager.search_properties crawler params with
  | CrawlerManager.Returns records => records
  | CrawlerManager.ReturnsOther => []
  | CrawlerManager.Raises _ => []
  end.

Definition gathered_records (g : CrawlerManager.Gathered) : list SearchResult :=
  match g with
  | CrawlerManager.GList records => records
  | CrawlerManager.GOther => []
  | CrawlerManager.GException _ => []
  end.

(** The values a job takes while [run_search_job] completes. *)
Definition completed_history (manager : CrawlerManager.CrawlerManager)
    (request : PriceRequest) (start_time now : Z) (j : Main.Job) : list Main.Job :=
  let all_results := CrawlerManager.search_all_platforms manager request in
  let j1 := Main.set_status "running" j in
  let j4 := Main.set_results all_results j1 in
  let j5 := Main.set_status "completed" j4 in
  let j6 := Main.set_progress 100%Q j5 in
  let j7 := Main.set_completed_platforms
              (length (CrawlerManager.get_available_platforms manager)) j6 in
  let j8 := Main.set_completed_at now j7 in
  let j9 := Main.set_execution_time (now - start_time) j8 in
  [j1; j1; j1; j4; j5; j6; j7; j8; j9; j9].

(** The values a job takes while [run_search_job] fails. *)
Definition failed_history (start_time now : Z) (j : Main.Job) : list Main.Job :=
  let j1 := Main.set_status "running" j in
  let j2 := Main.set_status "failed" j1 in
  let j3 := Main.set_error "'NoneType' object has no attribute 'search_all_platforms'" j2 in
  let j4 := Main.set_execution_time (now - start_time) j3 in
  [j1; j2; j3; j4].


(** The answer of [search_properties] on a cache hit. *)
Definition cached_answer (cached : CrawledPriceRecord) : Main.SearchResponse :=
  {| Main.r_job_id := "cached";
     Main.r_message := "Results retrieved from cache";
     Main.r_status := "completed";
     Main.r_cached := true;
     Main.r_cached_at := Some (rec_crawled_at cached);
     Main.r_total_results := Some (rec_total_results cached) |}.

(** The cache lookup [search_properties] performs for a request. *)
Definition cache_lookup (db : Database.DatabaseService) (now : Z) (request : PriceRequest)
  : option CrawledPriceRecord :=
  Database.get_cached_prices db now (hotel_name request) (city request)
    (country request) (checkin_date request) (checkout_date request) (state request).


(** The update messages of a broadcast, one per record, in order. *)
Definition update_messages (job_id : string) (request : PriceRequest)
    (results : list SearchResult) : list PyVal :=
  map (Main.price_update job_id request) results.

(** The texts of the messages that [json_dumps] serialises. *)
Definition serialised (json_dumps : PyVal -> Result string string)
    (messages : list PyVal) : list string :=
  omap (fun m => result_value (json_dumps m)) messages.

(** A connection after it was sent [texts]: an open one has received them,
    one on which [send_text] raises has received nothing. *)
Definition deliver (texts : list string) (c : Main.WebSocket) : Main.WebSocket :=
  if Main.ws_open c then
    {| Main.ws_id := Main.ws_id c; Main.ws_job_id := Main.ws_job_id c;
       Main.ws_open := true; Main.ws_received := Main.ws_received c ++ texts |}
  else c.

Definition demo_uuid4 (n : nat) : string :=
  "job-" +:+ Date.two_digits (Z.of_nat n).

Definition demo_json_dumps : PyVal -> Result string string :=
  json_dumps_default (fun _ => "{}").

Definition demo_record (source name : string) (amount : Q) : SearchResult :=
  {| platform := source; property_name := name; price := amount;
     currency := "USD"; availability := true; url := None; rating := None;
     review_count := None; amenities := None; image_url := None;
     fetched_at := 1000 |}.

Definition record_a1 := demo_record "airbnb" "Grand Hotel Loft" 120%Q.
Definition record_c1 := demo_record "vrbo" "Grand Hotel Suite" 150%Q.
Definition record_c2 := demo_record "vrbo" "Grand Hotel Annex" 95%Q.

Definition adapter_a : CrawlerManager.Crawler :=
  {| CrawlerManager.search_properties := fun _ => CrawlerManager.Returns [record_a1] |}.
Definition adapter_b : CrawlerManager.Crawler :=
  {| CrawlerManager.search_properties := fun _ => CrawlerManager.Raises "timeout" |}.
Definition adapter_c : CrawlerManager.Crawler :=
  {| CrawlerManager.search_properties :=
       fun _ => CrawlerManager.Returns [record_c1; record_c2] |}.

Definition demo_manager : CrawlerManager.CrawlerManager :=
  {| CrawlerManager.crawlers :=
       [("airbnb", adapter_a); ("booking", adapter_b); ("vrbo", adapter_c)] |}.

Definition demo_db : Database.DatabaseService :=
  {| Database.redis_up := true; Database.redis_keys := ∅;
     Database.mongo_up := true; Database.mongo_collection := [] |}.

Definition demo_world : Main.World :=
  {| Main.clock := 1000; Main.crawler_manager := Some demo_manager;
     Main.db_service := Some demo_db; Main.active_connections := [];
     Main.active_jobs := ∅; Main.uuids_drawn := 0; Main.adapter_calls := [] |}.

Definition grand_hotel : PriceRequest := paris_request "Grand Hotel" "Paris" None None.

Definition raw_grand_hotel : RawPriceRequest :=
  {| raw_hotel_name := Some "Grand Hotel";
     raw_checkin_date := Some (Date.mk 2025 6 1);
     raw_checkout_date := Some (Date.mk 2025 6 3);
     raw_city := Some "Paris"; raw_state := Some None;
     raw_country := Some "France";
     raw_latitude := Some None; raw_longitude := Some None |}.

(** The world after the first search and its background job. *)
Definition after_first_search : Main.World :=
  snd (Main.post_search demo_uuid4 demo_json_dumps raw_grand_hotel demo_world).

(** The world in which the first job has just been registered. *)
Definition job_registered : Main.World :=
  snd (fst (Main.search_properties demo_uuid4 grand_hotel demo_world)).

Definition job_00_pending : Main.Job :=
  {| Main.status := "pending"; Main.progress := 0%Q; Main.total_platforms := 3;
     Main.completed_platforms := 0; Main.results := []; Main.created_at := 1000;
     Main.request := grand_hotel; Main.completed_at := None;
     Main.execution_time := None; Main.error := None |}.

Definition job_00_completed : Main.Job :=
  {| Main.status := "completed"; Main.progress := 100%Q; Main.total_platforms := 3;
     Main.completed_platforms := 3;
     Main.results := [record_a1; record_c1; record_c2]; Main.created_at := 1000;
     Main.request := grand_hotel; Main.completed_at := Some 1000;
     Main.execution_time := Some 0; Main.error := None |}.

(** The aggregate the first job stores and caches. *)
Definition grand_hotel_aggregate : CrawledPriceRecord :=
  {| rec_hotel_name := "Grand Hotel"; rec_city := "Paris"; rec_country := "France";
     rec_checkin_date := Date.mk 2025 6 1; rec_checkout_date := Date.mk 2025 6 3;
     rec_state := None; rec_latitude := None; rec_longitude := None;
     rec_platform_prices :=
       [("airbnb", [record_a1]); ("vrbo", [record_c1; record_c2])];
     rec_total_results := 3; rec_crawled_at := 1000; rec_job_id := "job-00" |}.

Definition db_after_first_search : Database.DatabaseService :=
  {| Database.redis_up := true;
     Database.redis_keys :=
       {[ "prices:Grand Hotel:Paris:France:2025-06-01:2025-06-03" :=
            {| Database.entry_value := grand_hotel_aggregate;
               Database.entry_expires_at := 4600 |} ]};
     Database.mongo_up := true;
     Database.mongo_collection := [grand_hotel_aggregate] |}.

(** Two clients: the first asked for job [job-00], the second for another
    job. *)
Definition two_listeners : Main.World :=
  Main.websocket_connect 2 "job-01" (Main.websocket_connect 1 "job-00" after_first_search).

Definition raw_same_day : RawPriceRequest :=
  {| raw_hotel_name := Some "Grand Hotel";
     raw_checkin_date := Some (Date.mk 2025 6 1);
     raw_checkout_date := Some (Date.mk 2025 6 1);
     raw_city := Some "Paris"; raw_state := Some None;
     raw_country := Some "France";
     raw_latitude := Some None; raw_longitude := Some None |}.


(** The first job registered in a process whose manager was never
    initialised. *)
Definition no_manager_world : Main.World :=
  {| Main.clock := Main.clock job_registered; Main.crawler_manager := None;
     Main.db_service := Main.db_service job_registered;
     Main.active_connections := Main.active_connections two_listeners;
     Main.active_jobs := Main.active_jobs job_registered;
     Main.uuids_drawn := Main.uuids_drawn job_registered;
     Main.adapter_calls := Main.adapter_calls job_registered |}.



(** The list a grouping holds for a platform; empty when it has none. *)
Fixpoint group_of (p : string) (groups : list (string * list SearchResult))
  : list SearchResult :=
  match groups with
  | [] => []
  | (q, rs) :: rest => if bool_decide (q = p) then rs else group_of p rest
  end.

(** The records of one platform, in their order of arrival. *)
Definition of_platform (p : string) (results : list SearchResult) : list SearchResult :=
  filter (fun r => platform r = p) results.

(** What the grouping loop keeps true of the groups built from the records
    seen so far. *)
Definition grouped (groups : list (string * list SearchResult))
    (seen : list SearchResult) : Prop :=
  NoDup (map fst groups)
  /\ (forall q, In q (map fst groups) <-> exists r, In r seen /\ platform r = q)
  /\ (forall q, group_of q groups = of_platform q seen)
  /\ Permutation (concat (map snd groups)) seen.

(** The seconds slept in all. *)
Definition total_sleep (slept : BaseCrawler.Sleeps) : Z := foldr Z.add 0 slept.

(** The most the iterations [attempt], ..., [attempt + todo - 1] of the
    retry loop can sleep: the pause before every attempt but the first one
    and the rate-limit back-off after it. *)
Fixpoint sleep_budget (delay : Z) (todo : nat) (attempt : Z) : Z :=
  match todo with
  | O => 0
  | S todo' =>
      (if 0 <? attempt then delay else 0) + (attempt + 1) * delay * 2
      + sleep_budget delay todo' (attempt + 1)
  end.

(** An attempt answered by a rate limit. *)
Definition rate_limited (a : BaseCrawler.Attempt) : bool :=
  match a with
  | BaseCrawler.Answers r => BaseCrawler.resp_status r =? 429
  | BaseCrawler.Fails _ => false
  end.








(** A conversion for the examples: the number of characters of the literal. *)
Definition demo_float (m : string) : Q := inject_Z (Z.of_nat (String.length m)).


(** A listing card with a name, a price, a rating, reviews and a link. *)
Definition demo_listing : AirbnbCrawler.ListingElement :=
  {| AirbnbCrawler.name_by_testid := None;
     AirbnbCrawler.name_h3 := Some "  Grand   Hotel Loft ";
     AirbnbCrawler.name_h2 := None;
     AirbnbCrawler.price_by_testid := Some "$1,234 per night";
     AirbnbCrawler.price_by_class := None;
     AirbnbCrawler.rating_by_testid := Some "Rated 4.85 out of 5";
     AirbnbCrawler.rating_by_class := None;
     AirbnbCrawler.reviews_by_testid := None;
     AirbnbCrawler.reviews_by_class := Some "(1,024 reviews)";
     AirbnbCrawler.link_href := Some (Some "/rooms/42");
     AirbnbCrawler.img_src := Some None;
     AirbnbCrawler.amenity_texts := ["  Wifi "; "   "; "Kitchen"] |}.



(** A text without the separator of [to_key]. *)
Fixpoint no_colon (s : string) : bool :=
  match s with
  | EmptyString => true
  | String c rest => negb (Ascii.eqb c ":"%char) && no_colon rest
  end.

(** A key whose free-text fields before the dates hold no separator and
    whose dates are calendar dates. *)
Definition unambiguous (k : CacheKey) : bool :=
  no_colon (key_hotel_name k) && no_colon (key_city k) && no_colon (key_country k)
  && Date.valid (key_checkin_date k) && Date.valid (key_checkout_date k).

(** Two keys for the same search: equal fields, an empty state counting
    as none. *)
Definition same_criteria (a b : CacheKey) : Prop :=
  key_hotel_name a = key_hotel_name b
  /\ key_city a = key_city b
  /\ key_country a = key_country b
  /\ key_checkin_date a = key_checkin_date b
  /\ key_checkout_date a = key_checkout_date b
  /\ effective_state (key_state a) = effective_state (key_state b).

(** The key [cache_prices] builds for a record. *)
Definition record_key (r : CrawledPriceRecord) : CacheKey :=
  {| key_hotel_name := rec_hotel_name r; key_city := rec_city r;
     key_country := rec_country r; key_checkin_date := rec_checkin_date r;
     key_checkout_date := rec_checkout_date r; key_state := rec_state r |}.

Definition grand_hotel_key (name : string) (st : option string) : CacheKey :=
  {| key_hotel_name := name; key_city := "Paris"; key_country := "France";
     key_checkin_date := Date.mk 2025 6 1; key_checkout_date := Date.mk 2025 6 3;
     key_state := st |}.

(** ** Theorems *)

Section KeyExamples.

Let d1 := Date.mk 2025 6 1.
Let d3 := Date.mk 2025 6 3.

(** Sanity checks of the key format on the specification's example. *)
Example to_key_example :
  Database.get_cache_key "Grand Hotel" "Paris" "France" d1 d3 None
  = "prices:Grand Hotel:Paris:France:2025-06-01:2025-06-03".
Proof. reflexivity. Qed.

Example to_key_example_state :
  Database.get_cache_key "Ritz" "Austin" "USA" d1 d3 (Some "TX")
  = "prices:Ritz:Austin:USA:2025-06-01:2025-06-03:TX".
Proof. reflexivity. Qed.

Example scenario_dates_are_valid :
  Date.valid d1 = true /\ Date.valid d3 = true /\ Date.valid (Date.mk 2025 5 30) = true
  /\ Date.leb d3 d1 = false /\ Date.leb d1 d1 = true.
Proof. repeat split. Qed.

Example clean_text_example :
  BaseCrawler._clean_text "  Grand   Hotel " = "Grand Hotel".
Proof. reflexivity. Qed.

End KeyExamples.

(** *** Cache keys *)




(** C10: [to_key] is not injective. Two keys with different field tuples
    give the same text when a field contains the separator, and also when
    one has no state and the other carries as state the text that ends the
    first one's key. In both pairs the check-out is after the check-in. *)
Theorem to_key_not_injective :
  (exists k1 k2 : CacheKey,
      k1 <> k2
      /\ key_state k1 = None /\ key_state k2 = None
      /\ Date.leb (key_checkout_date k1) (key_checkin_date k1) = false
      /\ Date.leb (key_checkout_date k2) (key_checkin_date k2) = false
      /\ to_key k1 = to_key k2)
  /\ (exists k1 k2 : CacheKey,
      k1 <> k2
      /\ key_state k1 = None /\ key_state k2 = Some "2025-06-03"
      /\ Date.leb (key_checkout_date k1) (key_checkin_date k1) = false
      /\ Date.leb (key_checkout_date k2) (key_checkin_date k2) = false
      /\ to_key k1 = to_key k2).
Proof.
  split.
  - exists {| key_hotel_name := "Grand:Hotel"; key_city := "Paris";
              key_country := "France"; key_checkin_date := Date.mk 2025 6 1;
              key_checkout_date := Date.mk 2025 6 3; key_state := None |},
           {| key_hotel_name := "Grand"; key_city := "Hotel:Paris";
              key_country := "France"; key_checkin_date := Date.mk 2025 6 1;
              key_checkout_date := Date.mk 2025 6 3; key_state := None |}.
    repeat split; try reflexivity. intros H; discriminate H.
  - exists {| key_hotel_name := "Grand Hotel"; key_city := "Paris";
              key_country := "France:2025-05-30"; key_checkin_date := Date.mk 2025 6 1;
              key_checkout_date := Date.mk 2025 6 3; key_state := None |},
           {| key_hotel_name := "Grand Hotel"; key_city := "Paris";
              key_country := "France"; key_checkin_date := Date.mk 2025 5 30;
              key_checkout_date := Date.mk 2025 6 1;
              key_state := Some "2025-06-03" |}.
    repeat split; try reflexivity. intros H; discriminate H.
Qed.

(** *** Request validation *)

Lemma validate_checkout_rejects (raw : RawPriceRequest) (ci co : date) :
  raw_checkin_date raw = Some ci ->
  raw_checkout_date raw = Some co ->
  Date.leb co ci = true ->
  validate_field "checkout_date" (raw_checkout_date raw)
    (fun v => checkout_after_checkin v
                (result_value (validate_field "checkin_date" (raw_checkin_date raw) Ok)))
  = Raise ("checkout_date", "Checkout date must be after checkin date").
Proof.
  intros -> -> Hle. cbn. now rewrite Hle.
Qed.

(** C7: a payload whose check-out is not after its check-in never reaches
    the handler: building the [PriceRequest] raises a validation error that
    names [checkout_date], [POST /search] answers with it, and the world
    (job registry, ids drawn, adapters invoked, stores) is unchanged. *)
Theorem checkout_not_after_checkin_rejected
    (uuid4 : nat -> string) (json_dumps : PyVal -> Result string string)
    (raw : RawPriceRequest) (w : Main.World) (ci co : date) :
  raw_checkin_date raw = Some ci ->
  raw_checkout_date raw = Some co ->
  Date.leb co ci = true ->
  exists errors,
    PriceRequest_init raw = Raise errors
    /\ In ("checkout_date", "Checkout date must be after checkin date") errors
    /\ Main.post_search uuid4 json_dumps raw w
       = (Raise (Main.RequestValidationError errors), w).
Proof.
  intros Hci Hco Hle.
  pose proof (validate_checkout_rejects raw ci co Hci Hco Hle) as Hout.
  unfold Main.post_search, PriceRequest_init.
  rewrite Hout.
  destruct (validate_field "hotel_name" (raw_hotel_name raw) Ok);
  destruct (validate_field "checkin_date" (raw_checkin_date raw) Ok);
  destruct (validate_field "city" (raw_city raw) Ok);
  destruct (validate_field "state" (raw_state raw) Ok);
  destruct (validate_field "country" (raw_country raw) Ok);
  destruct (validate_field "latitude" (raw_latitude raw) validate_latitude);
  destruct (validate_field "longitude" (raw_longitude raw) validate_longitude);
  eexists; (split; [reflexivity | split; [cbn; tauto | reflexivity]]).
Qed.

(** *** The retry loop of an adapter *)

Lemma make_request_from_exhausted (max_retries delay : Z)
    (net : Z -> BaseCrawler.Attempt) (todo : nat) :
  forall (attempt : Z) (slept : BaseCrawler.Sleeps),
    (0 < todo)%nat ->
    attempt + Z.of_nat todo = max_retries ->
    (forall i, attempt <= i < max_retries -> succeeds (net i) = false) ->
    fst (BaseCrawler.make_request_from max_retries delay net todo attempt slept)
    = exhausted_result (net (max_retries - 1)).
Proof.
  induction todo as [|todo IH]; intros attempt slept Hpos Hsum Hfail; [lia|].
  pose proof (Hfail attempt ltac:(lia)) as Hnow.
  assert (Hnext : forall sl,
             (0 < todo)%nat ->
             fst (BaseCrawler.make_request_from max_retries delay net todo
                    (attempt + 1) sl)
             = exhausted_result (net (max_retries - 1))).
  { intros sl Ht. apply IH; [exact Ht | lia | intros i Hi; apply Hfail; lia]. }
  cbn [BaseCrawler.make_request_from].
  destruct todo as [|todo'].
  - (* the last attempt *)
    assert (Hlast : attempt = max_retries - 1) by lia.
    rewrite <- Hlast.
    destruct (net attempt) as [r|e]; cbn in Hnow |- *.
    + rewrite Hnow. destruct (BaseCrawler.resp_status r =? 429); reflexivity.
    + rewrite Hlast, Z.eqb_refl. reflexivity.
  - destruct (net attempt) as [r|e]; cbn in Hnow.
    + rewrite Hnow.
      destruct (BaseCrawler.resp_status r =? 429); apply Hnext; lia.
    + destruct (Z.eqb_spec attempt (max_retries - 1)) as [Heq|_]; [lia|].
      apply Hnext; lia.
Qed.

(** C6, as stated, fails: with the three attempts of the Airbnb adapter all
    answered by a server error, or all answered by a rate limit, no attempt
    succeeds and yet [make_request] returns [None] instead of raising;
    [get_page_content] hands the [None] on. *)
Lemma make_request_returns_none_when_exhausted :
  BaseCrawler.cfg_max_retries (BaseCrawler.init "airbnb") = 3
  /\ (forall i, succeeds (always_answers 500 i) = false)
  /\ BaseCrawler.make_request (BaseCrawler.init "airbnb") (always_answers 500)
     = (Ok None, [2; 2])
  /\ BaseCrawler.get_page_content (BaseCrawler.init "airbnb") (always_answers 500)
     = Ok None
  /\ (forall i, succeeds (always_answers 429 i) = false)
  /\ BaseCrawler.make_request (BaseCrawler.init "airbnb") (always_answers 429)
     = (Ok None, [4; 2; 8; 2; 12]).
Proof.
  repeat split.
Qed.

(** C6, amended: when every configured attempt is used up without a
    success, [make_request] raises exactly when the last attempt raised, and
    then it raises that attempt's exception; when the last attempt was
    answered (by a rate limit or another non-success status) it returns
    [None], and [get_page_content] returns [None] to its caller. *)
Theorem make_request_exhausted (c : BaseCrawler.BaseCrawler)
    (net : Z -> BaseCrawler.Attempt) :
  0 < BaseCrawler.cfg_max_retries c ->
  (forall i, 0 <= i < BaseCrawler.cfg_max_retries c -> succeeds (net i) = false) ->
  match net (BaseCrawler.cfg_max_retries c - 1) with
  | BaseCrawler.Fails e =>
      fst (BaseCrawler.make_request c net) = Raise e
      /\ BaseCrawler.get_page_content c net = Raise e
  | BaseCrawler.Answers _ =>
      fst (BaseCrawler.make_request c net) = Ok None
      /\ BaseCrawler.get_page_content c net = Ok None
  end.
Proof.
  intros Hpos Hfail.
  assert (H : fst (BaseCrawler.make_request c net)
              = exhausted_result (net (BaseCrawler.cfg_max_retries c - 1))).
  { unfold BaseCrawler.make_request.
    apply make_request_from_exhausted; [lia | lia | exact Hfail]. }
  unfold BaseCrawler.get_page_content. rewrite H.
  destruct (net (BaseCrawler.cfg_max_retries c - 1)); cbn; split; reflexivity.
Qed.

(** The amended C6 at work: three attempts of the Airbnb adapter that all
    time out end in the time-out being raised. *)
Lemma make_request_exhausted_witness :
  fst (BaseCrawler.make_request (BaseCrawler.init "airbnb") (always_fails "timeout"))
  = Raise "timeout"
  /\ BaseCrawler.get_page_content (BaseCrawler.init "airbnb") (always_fails "timeout")
     = Raise "timeout".
Proof.
  apply (make_request_exhausted (BaseCrawler.init "airbnb") (always_fails "timeout")).
  - reflexivity.
  - intros i Hi. reflexivity.
Defined.

(** *** The result bound of an adapter *)

Section AdapterBound.

Variable Listing : Type.
Variable find_all_card_container : string -> list Listing.
Variable find_all_class_listing : string -> list Listing.
Variable _extract_listing_data : Listing -> string -> Result string (option SearchResult).
Variable quote_plus : string -> string.
Variable urlencode : list (string * (string + Z)) -> string.

Lemma extract_each_omap (listings : list Listing) (search_url : string) :
  forall results,
    AirbnbCrawler.extract_each Listing _extract_listing_data listings search_url results
    = results ++ omap (usable _extract_listing_data search_url) listings.
Proof.
  induction listings as [|l ls IH]; intros results; cbn.
  - now rewrite app_nil_r.
  - unfold usable at 1.
    destruct (_extract_listing_data l search_url) as [[r|]|e]; rewrite IH.
    + now rewrite <- app_assoc.
    + reflexivity.
    + reflexivity.
Qed.

Lemma length_omap_le {A B : Type} (f : A -> option B) (xs : list A) :
  (length (omap f xs) <= length xs)%nat.
Proof.
  induction xs as [|x xs IH]; cbn; [lia|].
  destruct (f x); cbn; lia.
Qed.

Lemma length_slice_to_max (xs : list Listing) :
  (length (AirbnbCrawler.slice_to Config.MAX_PRICE_RESULTS_PER_PLATFORM xs) <= 10)%nat.
Proof.
  unfold AirbnbCrawler.slice_to, Config.MAX_PRICE_RESULTS_PER_PLATFORM. cbn.
  rewrite length_take. lia.
Qed.

Lemma search_properties_under_bounded (b : AirbnbCrawler.Binding)
    (c : BaseCrawler.BaseCrawler) (net : string -> Z -> BaseCrawler.Attempt)
    (hotel_name city checkin_date checkout_date : string) (guests : Z) :
  b = AirbnbCrawler.Unbound
  \/ b = AirbnbCrawler.Bound Config.MAX_PRICE_RESULTS_PER_PLATFORM ->
  exists results,
    AirbnbCrawler.search_properties_under Listing find_all_card_container
      find_all_class_listing _extract_listing_data quote_plus urlencode
      b c net hotel_name city checkin_date checkout_date guests = Ok results
    /\ (length results <= 10)%nat.
Proof.
  intros Hb.
  unfold AirbnbCrawler.search_properties_under, AirbnbCrawler.search_try.
  destruct (BaseCrawler.get_page_soup c _) as [[soup|]|e].
  - destruct Hb as [-> | ->].
    + eexists; split; [reflexivity | cbn; lia].
    + eexists; split; [reflexivity|].
      rewrite extract_each_omap. cbn [app].
      etransitivity; [apply length_omap_le | apply length_slice_to_max].
  - eexists; split; [reflexivity | cbn; lia].
  - eexists; split; [reflexivity | cbn; lia].
Qed.

(** X25: as the module is written the Airbnb adapter finds nothing: the
    name [Config] is not bound in the module, so the slice of the listings
    raises before any listing is read, the handler swallows the error, and
    every call returns the empty list, whatever the page holds and
    whatever the network does. *)
Theorem search_properties_empty_as_written
    (c : BaseCrawler.BaseCrawler) (net : string -> Z -> BaseCrawler.Attempt)
    (hotel_name city checkin_date checkout_date : string) (guests : Z) :
  AirbnbCrawler.search_properties Listing find_all_card_container
    find_all_class_listing _extract_listing_data quote_plus urlencode
    c net hotel_name city checkin_date checkout_date guests = Ok [].
Proof.
  unfold AirbnbCrawler.search_properties, AirbnbCrawler.search_properties_under,
    AirbnbCrawler.search_try, AirbnbCrawler.Config_binding.
  destruct (BaseCrawler.get_page_soup c _) as [[soup|]|e]; reflexivity.
Qed.

(** C9: a call of the Airbnb adapter's [search_properties] never raises
    and returns at most [MAX_PRICE_RESULTS_PER_PLATFORM] = 10 records,
    both as the module is written (where the name [Config] is unbound)
    and with the name bound to the configuration; and the extraction loop
    appends exactly the records of the usable listings, in order: a
    listing whose extraction returns nothing or raises adds no record and
    does not stop the loop. *)
Theorem search_properties_bounded
    (c : BaseCrawler.BaseCrawler) (net : string -> Z -> BaseCrawler.Attempt)
    (hotel_name city checkin_date checkout_date : string) (guests : Z) :
  Config.MAX_PRICE_RESULTS_PER_PLATFORM = 10
  /\ (exists results,
        AirbnbCrawler.search_properties Listing find_all_card_container
          find_all_class_listing _extract_listing_data quote_plus urlencode
          c net hotel_name city checkin_date checkout_date guests = Ok results
        /\ (length results <= 10)%nat)
  /\ (exists results,
        AirbnbCrawler.search_properties_under Listing find_all_card_container
          find_all_class_listing _extract_listing_data quote_plus urlencode
          (AirbnbCrawler.Bound Config.MAX_PRICE_RESULTS_PER_PLATFORM)
          c net hotel_name city checkin_date checkout_date guests = Ok results
        /\ (length results <= 10)%nat)
  /\ (forall listings search_url,
        AirbnbCrawler.extract_each Listing _extract_listing_data listings search_url []
        = omap (usable _extract_listing_data search_url) listings).
Proof.
  split; [reflexivity|].
  split; [apply search_properties_under_bounded; now left|].
  split; [apply search_properties_under_bounded; now right|].
  intros listings search_url. now rewrite extract_each_omap.
Qed.

End AdapterBound.

(** *** The fan-out *)

Lemma process_results_concat (gathered : list CrawlerManager.Gathered) :
  forall all_results,
    CrawlerManager.process_results gathered all_results
    = all_results ++ concat (map gathered_records gathered).
Proof.
  induction gathered as [|g gs IH]; intros acc; cbn.
  - now rewrite app_nil_r.
  - destruct g; rewrite IH; cbn; [now rewrite app_assoc | reflexivity | reflexivity].
Qed.

Lemma gathered_search_platform (params : CrawlerManager.SearchParams)
    (crawler : CrawlerManager.Crawler) :
  gathered_records (CrawlerManager._search_platform crawler params)
  = contribution params crawler.
Proof.
  unfold CrawlerManager._search_platform, contribution.
  destruct (CrawlerManager.search_properties crawler params); reflexivity.
Qed.

(** The aggregate is the concatenation, in dispatch order, of what each
    adapter contributes. *)
Lemma search_all_platforms_concat (manager : CrawlerManager.CrawlerManager)
    (request : PriceRequest) :
  CrawlerManager.search_all_platforms manager request
  = concat (map (fun pc => contribution (CrawlerManager.make_search_params request) (snd pc))
                (CrawlerManager.crawlers manager)).
Proof.
  unfold CrawlerManager.search_all_platforms.
  destruct (CrawlerManager.crawlers manager) as [|pc pcs]; [reflexivity|].
  remember (pc :: pcs) as cs eqn:Hcs.
  assert (Hmap : map (fun pc0 => CrawlerManager._search_platform (snd pc0)
                                   (CrawlerManager.make_search_params request)) cs
                 <> []) by (subst cs; discriminate).
  destruct (map _ cs) as [|g gs] eqn:Hg; [congruence|].
  rewrite <- Hg, process_results_concat. cbn [app].
  rewrite map_map. f_equal.
  apply map_ext. intros a. apply gathered_search_platform.
Qed.

Lemma contributions_of_survivors (params : CrawlerManager.SearchParams)
    (survivors : list (string * CrawlerManager.Crawler))
    (records : list (list SearchResult)) :
  Forall2 (fun pc rs => CrawlerManager.search_properties (snd pc) params
                        = CrawlerManager.Returns rs) survivors records ->
  map (fun pc => contribution params (snd pc)) survivors = records.
Proof.
  induction 1 as [|pc rs pcs rss Hhead _ IH]; cbn; [reflexivity|].
  unfold contribution at 1. now rewrite Hhead, IH.
Qed.

Lemma length_concat_sum {A : Type} (xss : list (list A)) :
  length (concat xss) = sum_list (map length xss).
Proof.
  induction xss as [|xs xss IH]; cbn; [reflexivity|].
  now rewrite length_app, IH.
Qed.

(** *** Jobs *)

Lemma send_results_keeps_jobs (json_dumps : PyVal -> Result string string)
    (job_id : string) (results : list SearchResult) (w : Main.World) :
  Main.active_jobs (Main.send_results_to_websockets json_dumps job_id results w)
  = Main.active_jobs w.
Proof.
  unfold Main.send_results_to_websockets.
  destruct (Main.active_jobs w !! job_id) as [job|]; [|reflexivity].
  revert w. induction results as [|r rs IH]; intros w; cbn; [reflexivity|].
  now rewrite IH.
Qed.

Lemma update_job_lookup (job_id : string) (f : Main.Job -> Main.Job) (w : Main.World) :
  Main.active_jobs (Main.update_job job_id f w) !! job_id
  = f <$> Main.active_jobs w !! job_id.
Proof. apply lookup_alter_eq. Qed.

Lemma db_step_keeps (w : Main.World) (request : PriceRequest) (job_id : string)
    (all_results : list SearchResult) :
  let w3 :=
    match Main.db_service w with
    | Some db =>
        let '(db', save_success) :=
          Database.save_search_results db (Main.clock w) (hotel_name request)
            (city request) (country request) (checkin_date request)
            (checkout_date request) (state request) (latitude request)
            (longitude request) job_id all_results in
        Main.set_db_service (Some db') w
    | None => w
    end in
  Main.active_jobs w3 = Main.active_jobs w /\ Main.clock w3 = Main.clock w
  /\ Main.active_connections w3 = Main.active_connections w
  /\ Main.adapter_calls w3 = Main.adapter_calls w
  /\ Main.uuids_drawn w3 = Main.uuids_drawn w
  /\ Main.crawler_manager w3 = Main.crawler_manager w.
Proof.
  cbn zeta. destruct (Main.db_service w) as [db|]; [|tauto].
  destruct (Database.save_search_results _ _ _ _ _ _ _ _ _ _ _ _) as [db' ok].
  cbn. tauto.
Qed.

Lemma run_search_job_history (json_dumps : PyVal -> Result string string)
    (job_id : string) (request : PriceRequest) (w : Main.World) (j : Main.Job) :
  Main.active_jobs w !! job_id = Some j ->
  Main.job_history job_id (Main.run_search_job_trace json_dumps job_id request w)
  = match Main.crawler_manager w with
    | Some manager => completed_history manager request (Main.clock w) (Main.clock w) j
    | None => failed_history (Main.clock w) (Main.clock w) j
    end.
Proof.
  intros Hj. unfold Main.run_search_job_trace. rewrite Hj.
  cbn [Main.crawler_manager Main.update_job Main.set_active_jobs].
  destruct (Main.crawler_manager w) as [manager|].
  - set (w2 := Main.set_adapter_calls _ _).
    pose proof (db_step_keeps w2 request job_id
                  (CrawlerManager.search_all_platforms manager request)) as Hdb.
    cbn zeta in Hdb.
    set (w3 := match Main.db_service w2 with Some _ => _ | None => _ end) in *.
    destruct Hdb as (Hjobs & Hclock & _).
    unfold Main.job_history, completed_history. cbn [omap list_omap].
    rewrite send_results_keeps_jobs.
    cbn [Main.active_jobs Main.update_job Main.set_active_jobs Main.clock].
    rewrite Hjobs, Hclock. subst w2.
    cbn [Main.active_jobs Main.set_adapter_calls Main.clock Main.update_job
         Main.set_active_jobs].
    rewrite !lookup_alter_eq, Hj. reflexivity.
  - unfold Main.job_history, failed_history. cbn [omap list_omap].
    cbn [Main.active_jobs Main.update_job Main.set_active_jobs Main.clock].
    rewrite !lookup_alter_eq, Hj. reflexivity.
Qed.

Lemma last_omap_total {A B : Type} (f : A -> option B) (xs : list A) :
  length (omap f xs) = length xs ->
  last (omap f xs) = last xs ≫= f.
Proof.
  induction xs as [|x xs IH]; [reflexivity|].
  cbn [omap list_omap]. pose proof (length_omap_le f xs) as Hle.
  destruct (f x) as [b|] eqn:Hx; cbn [length]; intros Hlen; [|lia].
  assert (Hlen' : length (omap f xs) = length xs) by lia.
  specialize (IH Hlen').
  destruct xs as [|y ys]; [cbn; now rewrite Hx|].
  rewrite last_cons_cons, <- IH.
  destruct (omap f (y :: ys)) as [|b' bs]; [discriminate Hlen'|].
  apply last_cons_cons.
Qed.

Lemma run_search_job_trace_length (json_dumps : PyVal -> Result string string)
    (job_id : string) (request : PriceRequest) (w : Main.World) (j : Main.Job) :
  Main.active_jobs w !! job_id = Some j ->
  length (Main.job_history job_id (Main.run_search_job_trace json_dumps job_id request w))
  = length (Main.run_search_job_trace json_dumps job_id request w).
Proof.
  intros Hj. rewrite (run_search_job_history _ _ _ _ _ Hj).
  unfold Main.run_search_job_trace. rewrite Hj.
  cbn [Main.crawler_manager Main.update_job Main.set_active_jobs].
  destruct (Main.crawler_manager w); reflexivity.
Qed.

(** The job a run leaves in the registry is the last value of its history. *)
Lemma run_search_job_final (json_dumps : PyVal -> Result string string)
    (job_id : string) (request : PriceRequest) (w : Main.World) (j : Main.Job) :
  Main.active_jobs w !! job_id = Some j ->
  Main.active_jobs (Main.run_search_job json_dumps job_id request w) !! job_id
  = last (Main.job_history job_id (Main.run_search_job_trace json_dumps job_id request w)).
Proof.
  intros Hj. unfold Main.job_history.
  rewrite last_omap_total by (apply (run_search_job_trace_length _ _ _ _ _ Hj)).
  unfold Main.run_search_job.
  destruct (last _) as [wf|] eqn:Hlast; [reflexivity|].
  apply last_None in Hlast.
  pose proof (run_search_job_trace_length json_dumps job_id request w j Hj) as Hlen.
  rewrite (run_search_job_history _ _ _ _ _ Hj), Hlast in Hlen.
  destruct (Main.crawler_manager w); discriminate Hlen.
Qed.

(** C1: with the adapters [before ++ (p, failing) :: after] enabled, where
    the search of [failing] raises and every other adapter returns a list
    of records, the fan-out returns the concatenation of the other
    adapters' lists in dispatch order; the background job ends in state
    [completed] with that list as its results, and the result count it
    reports is the sum of the other adapters' record counts. *)
Theorem failure_isolation (json_dumps : PyVal -> Result string string)
    (w : Main.World) (job_id : string) (request : PriceRequest) (job0 : Main.Job)
    (manager : CrawlerManager.CrawlerManager)
    (before after : list (string * CrawlerManager.Crawler))
    (p : string) (failing : CrawlerManager.Crawler) (e : string)
    (records : list (list SearchResult)) :
  Main.crawler_manager w = Some manager ->
  Main.active_jobs w !! job_id = Some job0 ->
  CrawlerManager.crawlers manager = before ++ (p, failing) :: after ->
  CrawlerManager.search_properties failing (CrawlerManager.make_search_params request)
  = CrawlerManager.Raises e ->
  Forall2 (fun pc rs =>
             CrawlerManager.search_properties (snd pc)
               (CrawlerManager.make_search_params request)
             = CrawlerManager.Returns rs) (before ++ after) records ->
  CrawlerManager.search_all_platforms manager request = concat records
  /\ exists job answer,
      Main.active_jobs (Main.run_search_job json_dumps job_id request w) !! job_id
      = Some job
      /\ Main.status job = "completed"
      /\ Main.results job = concat records
      /\ Main.get_job_results job_id (Main.run_search_job json_dumps job_id request w)
         = Ok answer
      /\ Main.jr_results answer = concat records
      /\ Main.jr_total_results answer = sum_list (map length records).
Proof.
  intros Hm Hj Hcs Hfail Hothers.
  assert (Hall : CrawlerManager.search_all_platforms manager request = concat records).
  { rewrite search_all_platforms_concat, Hcs, map_app. cbn [map snd].
    unfold contribution at 2. rewrite Hfail.
    rewrite concat_app. cbn [concat app].
    rewrite <- concat_app, <- map_app.
    now rewrite (contributions_of_survivors _ _ _ Hothers). }
  split; [exact Hall|].
  pose proof (run_search_job_final json_dumps job_id request w job0 Hj) as Hfinal.
  rewrite (run_search_job_history _ _ _ _ _ Hj), Hm in Hfinal.
  cbn in Hfinal.
  eexists; eexists.
  split; [exact Hfinal|].
  split; [reflexivity|].
  split; [exact Hall|].
  unfold Main.get_job_results. rewrite Hfinal. cbn.
  split; [reflexivity|].
  split; [exact Hall|].
  rewrite Hall. apply length_concat_sum.
Qed.



(** *** Cache and store *)





(** *** The broadcast *)

Lemma deliver_nil (c : Main.WebSocket) : deliver [] c = c.
Proof.
  unfold deliver. destruct c as [i j o r]; cbn. destruct o; [|reflexivity].
  now rewrite app_nil_r.
Qed.

Lemma deliver_try_send (json_dumps : PyVal -> Result string string)
    (m : PyVal) (texts : list string) (c : Main.WebSocket) :
  deliver texts (Main.try_send json_dumps m c)
  = deliver (serialised json_dumps [m] ++ texts) c.
Proof.
  unfold Main.try_send, serialised. cbn [omap list_omap].
  destruct (json_dumps m) as [text|e]; cbn [result_value app]; [|reflexivity].
  unfold Main.send_text, deliver. destruct c as [i j o r]; cbn.
  destruct o; cbn; [|reflexivity].
  now rewrite <- app_assoc.
Qed.

Lemma serialised_cons (json_dumps : PyVal -> Result string string)
    (m : PyVal) (ms : list PyVal) :
  serialised json_dumps (m :: ms) = serialised json_dumps [m] ++ serialised json_dumps ms.
Proof.
  unfold serialised. cbn [omap list_omap].
  destruct (result_value (json_dumps m)); reflexivity.
Qed.

Lemma broadcast_loop (json_dumps : PyVal -> Result string string)
    (job_id : string) (request : PriceRequest) (results : list SearchResult) :
  forall w,
    foldl (fun w result =>
             Main.set_active_connections
               (map (Main.try_send json_dumps (Main.price_update job_id request result))
                    (Main.active_connections w)) w) w results
    = Main.set_active_connections
        (map (deliver (serialised json_dumps (update_messages job_id request results)))
             (Main.active_connections w)) w.
Proof.
  induction results as [|r rs IH]; intros w.
  - cbn [foldl]. unfold update_messages, serialised. cbn [map omap list_omap].
    rewrite (map_ext _ id deliver_nil), map_id.
    now destruct w.
  - cbn [foldl]. rewrite IH. unfold update_messages. cbn [map].
    rewrite serialised_cons.
    unfold Main.set_active_connections. cbn [Main.active_connections].
    rewrite map_map.
    rewrite (map_ext _ _ (deliver_try_send json_dumps _ _)).
    reflexivity.
Qed.


(** The default encoder rejects every update message: its [price_data]
    carries the [datetime] of [fetched_at]. *)
Lemma price_update_not_serialisable (json_text : PyVal -> string)
    (job_id : string) (request : PriceRequest) (result : SearchResult) :
  json_dumps_default json_text (Main.price_update job_id request result)
  = Raise "Object of type datetime is not JSON serializable".
Proof.
  unfold json_dumps_default, Main.price_update.
  destruct (state request), (latitude request), (longitude request); reflexivity.
Qed.

Lemma serialised_default_nil (json_text : PyVal -> string)
    (job_id : string) (request : PriceRequest) (results : list SearchResult) :
  serialised (json_dumps_default json_text) (update_messages job_id request results) = [].
Proof.
  induction results as [|r rs IH]; [reflexivity|].
  unfold update_messages. cbn [map]. rewrite serialised_cons.
  unfold update_messages in IH. rewrite IH.
  unfold serialised. cbn [omap list_omap].
  now rewrite price_update_not_serialisable.
Qed.

(** *** A repeated search *)

Lemma post_search_hit (uuid4 : nat -> string)
    (json_dumps : PyVal -> Result string string)
    (raw : RawPriceRequest) (request : PriceRequest) (w : Main.World)
    (manager : CrawlerManager.CrawlerManager) (db : Database.DatabaseService)
    (cached : CrawledPriceRecord) :
  PriceRequest_init raw = Ok request ->
  Main.crawler_manager w = Some manager ->
  Main.db_service w = Some db ->
  cache_lookup db (Main.clock w) request = Some cached ->
  Main.post_search uuid4 json_dumps raw w = (Ok (cached_answer cached), w).
Proof.
  intros Hraw Hm Hdb Hhit.
  unfold Main.post_search, Main.search_properties. rewrite Hraw, Hm, Hdb.
  unfold cache_lookup in Hhit. now rewrite Hhit.
Qed.

Lemma send_results_keeps_rest (json_dumps : PyVal -> Result string string)
    (job_id : string) (results : list SearchResult) (w : Main.World) :
  let w' := Main.send_results_to_websockets json_dumps job_id results w in
  Main.clock w' = Main.clock w
  /\ Main.crawler_manager w' = Main.crawler_manager w
  /\ Main.db_service w' = Main.db_service w
  /\ Main.uuids_drawn w' = Main.uuids_drawn w
  /\ Main.adapter_calls w' = Main.adapter_calls w.
Proof.
  cbv zeta. unfold Main.send_results_to_websockets.
  destruct (Main.active_jobs w !! job_id) as [job|]; [|tauto].
  rewrite broadcast_loop. cbn. tauto.
Qed.

(** What a completed run leaves in the services: the manager and the clock
    are untouched, and the database service is the one
    [save_search_results] returned. *)
Lemma run_search_job_services (json_dumps : PyVal -> Result string string)
    (job_id : string) (request : PriceRequest) (w : Main.World) (j : Main.Job)
    (manager : CrawlerManager.CrawlerManager) (db : Database.DatabaseService) :
  Main.active_jobs w !! job_id = Some j ->
  Main.crawler_manager w = Some manager ->
  Main.db_service w = Some db ->
  let w' := Main.run_search_job json_dumps job_id request w in
  Main.clock w' = Main.clock w
  /\ Main.crawler_manager w' = Some manager
  /\ Main.db_service w'
     = Some (fst (Database.save_search_results db (Main.clock w) (hotel_name request)
                    (city request) (country request) (checkin_date request)
                    (checkout_date request) (state request) (latitude request)
                    (longitude request) job_id
                    (CrawlerManager.search_all_platforms manager request))).
Proof.
  intros Hj Hm Hdb. cbv zeta.
  unfold Main.run_search_job, Main.run_search_job_trace. rewrite Hj.
  change (Main.crawler_manager (Main.update_job job_id (Main.set_status "running") w))
    with (Main.crawler_manager w).
  rewrite Hm. cbv zeta.
  set (w2 := Main.set_adapter_calls _ _).
  change (Main.db_service w2) with (Main.db_service w).
  change (Main.clock w2) with (Main.clock w).
  rewrite Hdb.
  destruct (Database.save_search_results _ _ _ _ _ _ _ _ _ _ _ _) as [db' ok].
  cbn [last default from_option id fst].
  match goal with
  | |- context [Main.send_results_to_websockets ?jd ?i ?rs ?w9] =>
      destruct (send_results_keeps_rest jd i rs w9) as (Hc & Hcm & Hd & _)
  end.
  rewrite Hc, Hcm, Hd. subst w2. cbn. rewrite Hm. repeat split.
Qed.

Lemma post_search_miss (uuid4 : nat -> string)
    (json_dumps : PyVal -> Result string string)
    (raw : RawPriceRequest) (request : PriceRequest) (w : Main.World)
    (manager : CrawlerManager.CrawlerManager) (db : Database.DatabaseService) :
  PriceRequest_init raw = Ok request ->
  Main.crawler_manager w = Some manager ->
  Main.db_service w = Some db ->
  cache_lookup db (Main.clock w) request = None ->
  exists w1 j,
    snd (Main.post_search uuid4 json_dumps raw w)
    = Main.run_search_job json_dumps (uuid4 (Main.uuids_drawn w)) request w1
    /\ Main.active_jobs w1 !! uuid4 (Main.uuids_drawn w) = Some j
    /\ Main.crawler_manager w1 = Some manager
    /\ Main.db_service w1 = Some db
    /\ Main.clock w1 = Main.clock w.
Proof.
  intros Hraw Hm Hdb Hmiss.
  unfold Main.post_search, Main.search_properties. rewrite Hraw, Hm, Hdb.
  unfold cache_lookup in Hmiss. rewrite Hmiss.
  cbn [Main.generate_job_id fst snd Main.run_background_tasks foldl].
  eexists; eexists. split; [reflexivity|].
  split; [apply lookup_insert_eq|].
  cbn. repeat split; assumption.
Qed.

(** With Redis reachable, what [save_search_results] wrote is found under
    the same fields until the entry expires. *)
Lemma saved_results_are_cached (db : Database.DatabaseService) (now later : Z)
    (hotel_name city country : string) (checkin_date checkout_date : date)
    (state : option string) (latitude longitude : option Q) (job_id : string)
    (results : list SearchResult) :
  Database.redis_up db = true ->
  later < now + Config.CACHE_TTL ->
  exists cached,
    Database.get_cached_prices
      (fst (Database.save_search_results db now hotel_name city country checkin_date
              checkout_date state latitude longitude job_id results))
      later hotel_name city country checkin_date checkout_date state
    = Some cached
    /\ rec_total_results cached = length results
    /\ rec_crawled_at cached = now.
Proof.
  intros Hup Hlater.
  unfold Database.save_search_results, Database.save_prices_to_mongodb.
  set (aggregate := {| rec_hotel_name := hotel_name |}).
  exists aggregate. split; [|split; reflexivity].
  set (db1 := if Database.mongo_up db then _ else _).
  assert (Hup1 : Database.redis_up db1.1 = true)
    by (subst db1; destruct (Database.mongo_up db); exact Hup).
  destruct db1 as [db1 mongo_success]. cbn [fst] in Hup1.
  unfold Database.cache_prices, Database.redis_setex. rewrite Hup1. cbn [fst].
  unfold Database.get_cached_prices, Database.redis_get.
  cbn [Database.redis_up Database.set_redis_keys Database.redis_keys
       rec_hotel_name rec_city rec_country rec_checkin_date rec_checkout_date
       rec_state aggregate].
  rewrite Hup1, lookup_insert_eq.
  cbn [Database.entry_expires_at Database.entry_value].
  destruct (Z.ltb_spec later (now + Config.CACHE_TTL)); [reflexivity | lia].
Qed.

(** A second identical search issued before the cache entry expires finds
    the entry the first search wrote, provided Redis is reachable: its
    answer is the cached summary of the first job's results and the world
    does not change. *)
Lemma second_identical_search_is_cached (uuid4 : nat -> string)
    (json_dumps : PyVal -> Result string string)
    (raw : RawPriceRequest) (request : PriceRequest) (w : Main.World)
    (manager : CrawlerManager.CrawlerManager) (db : Database.DatabaseService)
    (seconds : Z) :
  PriceRequest_init raw = Ok request ->
  Main.crawler_manager w = Some manager ->
  Main.db_service w = Some db ->
  Database.redis_up db = true ->
  cache_lookup db (Main.clock w) request = None ->
  0 <= seconds < Config.CACHE_TTL ->
  let w' := Main.elapse seconds (snd (Main.post_search uuid4 json_dumps raw w)) in
  exists cached,
    Main.post_search uuid4 json_dumps raw w' = (Ok (cached_answer cached), w')
    /\ rec_total_results cached
       = length (CrawlerManager.search_all_platforms manager request)
    /\ rec_crawled_at cached = Main.clock w.
Proof.
  intros Hraw Hm Hdb Hup Hmiss Hdt. cbv zeta.
  destruct (post_search_miss uuid4 json_dumps raw request w manager db
              Hraw Hm Hdb Hmiss) as (w1 & j & -> & Hj & Hm1 & Hdb1 & Hclock1).
  destruct (run_search_job_services json_dumps (uuid4 (Main.uuids_drawn w)) request
              w1 j manager db Hj Hm1 Hdb1) as (Hclock & Hmanager & Hservice).
  rewrite Hclock1 in Hclock, Hservice.
  destruct (saved_results_are_cached db (Main.clock w) (Main.clock w + seconds)
              (hotel_name request) (city request) (country request)
              (checkin_date request) (checkout_date request) (state request)
              (latitude request) (longitude request) (uuid4 (Main.uuids_drawn w))
              (CrawlerManager.search_all_platforms manager request) Hup ltac:(lia))
    as (cached & Hcached & Htotal & Hat).
  exists cached. split; [|split; assumption].
  eapply post_search_hit; [exact Hraw | exact Hmanager | exact Hservice |].
  unfold cache_lookup. cbn [Main.clock Main.elapse Main.set_clock].
  rewrite Hclock. exact Hcached.
Qed.

(** *** A worked scenario: three adapters, the second one failing *)

Example raw_grand_hotel_validates : PriceRequest_init raw_grand_hotel = Ok grand_hotel.
Proof. reflexivity. Qed.

Example first_search_answer :
  fst (Main.post_search demo_uuid4 demo_json_dumps raw_grand_hotel demo_world)
  = Ok {| Main.r_job_id := "job-00"; Main.r_message := "Search job started";
          Main.r_status := "pending"; Main.r_cached := false;
          Main.r_cached_at := None; Main.r_total_results := None |}.
Proof. reflexivity. Qed.

Example first_search_job :
  (Main.status <$> Main.active_jobs after_first_search !! "job-00") = Some "completed"
  /\ (Main.results <$> Main.active_jobs after_first_search !! "job-00")
     = Some [record_a1; record_c1; record_c2]
  /\ Main.adapter_calls after_first_search = ["airbnb"; "booking"; "vrbo"].
Proof. repeat split; vm_compute; reflexivity. Qed.

Example job_registered_lookup :
  Main.active_jobs job_registered !! "job-00" = Some job_00_pending.
Proof. vm_compute. reflexivity. Qed.

Example after_first_search_lookup :
  Main.active_jobs after_first_search !! "job-00" = Some job_00_completed.
Proof. vm_compute. reflexivity. Qed.

Example after_first_search_db :
  Main.db_service after_first_search = Some db_after_first_search.
Proof. vm_compute. reflexivity. Qed.


(** *** The scenario, claim by claim *)

(** C1 on the scenario: the Booking adapter fails, the job completes with
    the one Airbnb record and the two Vrbo records. *)
Lemma failure_isolation_witness :
  CrawlerManager.search_all_platforms demo_manager grand_hotel
  = concat [[record_a1]; [record_c1; record_c2]]
  /\ exists job answer,
      Main.active_jobs
        (Main.run_search_job demo_json_dumps "job-00" grand_hotel job_registered)
        !! "job-00" = Some job
      /\ Main.status job = "completed"
      /\ Main.results job = concat [[record_a1]; [record_c1; record_c2]]
      /\ Main.get_job_results "job-00"
           (Main.run_search_job demo_json_dumps "job-00" grand_hotel job_registered)
         = Ok answer
      /\ Main.jr_results answer = concat [[record_a1]; [record_c1; record_c2]]
      /\ Main.jr_total_results answer
         = sum_list (map length [[record_a1]; [record_c1; record_c2]]).
Proof.
  apply (failure_isolation demo_json_dumps job_registered "job-00" grand_hotel
           job_00_pending demo_manager [("airbnb", adapter_a)] [("vrbo", adapter_c)]
           "booking" adapter_b "timeout" [[record_a1]; [record_c1; record_c2]]).
  - reflexivity.
  - vm_compute. reflexivity.
  - reflexivity.
  - reflexivity.
  - repeat constructor.
Defined.





(** C7 on the scenario: a stay that ends the day it starts. *)
Lemma checkout_not_after_checkin_rejected_witness :
  exists errors,
    PriceRequest_init raw_same_day = Raise errors
    /\ In ("checkout_date", "Checkout date must be after checkin date") errors
    /\ Main.post_search demo_uuid4 demo_json_dumps raw_same_day demo_world
       = (Raise (Main.RequestValidationError errors), demo_world).
Proof.
  apply (checkout_not_after_checkin_rejected demo_uuid4 demo_json_dumps raw_same_day
           demo_world (Date.mk 2025 6 1) (Date.mk 2025 6 1)); reflexivity.
Defined.



(** With the default encoder no update message is ever delivered: every
    broadcast leaves every connection as it was. *)
Lemma default_encoder_delivers_nothing (json_text : PyVal -> string)
    (job_id : string) (results : list SearchResult) (w : Main.World) :
  Main.send_results_to_websockets (json_dumps_default json_text) job_id results w = w.
Proof.
  unfold Main.send_results_to_websockets.
  destruct (Main.active_jobs w !! job_id) as [job|]; [|reflexivity].
  rewrite broadcast_loop, serialised_default_nil.
  rewrite (map_ext _ id deliver_nil), map_id. now destruct w.
Qed.

(** ** Further properties of the job lifecycle *)



(** The services a run leaves behind when the manager is missing. *)
Lemma run_search_job_failed_world (json_dumps : PyVal -> Result string string)
    (w : Main.World) (job_id : string) (request : PriceRequest) (job0 : Main.Job) :
  Main.crawler_manager w = None ->
  Main.active_jobs w !! job_id = Some job0 ->
  let w' := Main.run_search_job json_dumps job_id request w in
  Main.db_service w' = Main.db_service w
  /\ Main.adapter_calls w' = Main.adapter_calls w
  /\ Main.active_connections w' = Main.active_connections w
  /\ Main.uuids_drawn w' = Main.uuids_drawn w
  /\ Main.clock w' = Main.clock w.
Proof.
  intros Hm Hj. cbv zeta.
  unfold Main.run_search_job, Main.run_search_job_trace. rewrite Hj.
  change (Main.crawler_manager (Main.update_job job_id (Main.set_status "running") w))
    with (Main.crawler_manager w).
  rewrite Hm. cbn. repeat split.
Qed.

(** X2: a registered job run while the crawler manager is not initialised
    ends [failed]: the error text is recorded with the elapsed time, while
    progress, results and completed-platform count stay as they were; no
    adapter is invoked, nothing is stored or cached and no client is sent
    anything. *)
Theorem run_search_job_without_manager_fails
    (json_dumps : PyVal -> Result string string)
    (w : Main.World) (job_id : string) (request : PriceRequest) (job0 : Main.Job) :
  Main.crawler_manager w = None ->
  Main.active_jobs w !! job_id = Some job0 ->
  let w' := Main.run_search_job json_dumps job_id request w in
  (exists job,
      Main.active_jobs w' !! job_id = Some job
      /\ Main.status job = "failed"
      /\ is_Some (Main.error job)
      /\ Main.execution_time job = Some 0
      /\ Main.progress job = Main.progress job0
      /\ Main.results job = Main.results job0
      /\ Main.completed_platforms job = Main.completed_platforms job0
      /\ Main.completed_at job = Main.completed_at job0)
  /\ Main.db_service w' = Main.db_service w
  /\ Main.adapter_calls w' = Main.adapter_calls w
  /\ Main.active_connections w' = Main.active_connections w.
Proof.
  intros Hm Hj. cbv zeta.
  pose proof (run_search_job_final json_dumps job_id request w job0 Hj) as Hfinal.
  rewrite (run_search_job_history _ _ _ _ _ Hj), Hm in Hfinal.
  cbn in Hfinal.
  destruct (run_search_job_failed_world json_dumps w job_id request job0 Hm Hj)
    as (Hdb & Hcalls & Hconn & _).
  split; [|repeat split; assumption].
  eexists. split; [exact Hfinal|]. cbn.
  rewrite Z.sub_diag. repeat split. eauto.
Qed.

Lemma run_search_job_without_manager_fails_witness :
  let w' := Main.run_search_job demo_json_dumps "job-00" grand_hotel no_manager_world in
  (exists job,
      Main.active_jobs w' !! "job-00" = Some job
      /\ Main.status job = "failed"
      /\ is_Some (Main.error job)
      /\ Main.execution_time job = Some 0
      /\ Main.progress job = Main.progress job_00_pending
      /\ Main.results job = Main.results job_00_pending
      /\ Main.completed_platforms job = Main.completed_platforms job_00_pending
      /\ Main.completed_at job = Main.completed_at job_00_pending)
  /\ Main.db_service w' = Main.db_service no_manager_world
  /\ Main.adapter_calls w' = Main.adapter_calls no_manager_world
  /\ Main.active_connections w' = Main.active_connections no_manager_world.
Proof.
  apply (run_search_job_without_manager_fails demo_json_dumps no_manager_world
           "job-00" grand_hotel job_00_pending).
  - reflexivity.
  - vm_compute. reflexivity.
Defined.

Lemma run_search_job_unregistered (json_dumps : PyVal -> Result string string)
    (w : Main.World) (job_id : string) (request : PriceRequest) :
  Main.active_jobs w !! job_id = None ->
  Main.run_search_job json_dumps job_id request w = w.
Proof.
  intros Hj. unfold Main.run_search_job, Main.run_search_job_trace. now rewrite Hj.
Qed.

Lemma run_search_job_other_jobs (json_dumps : PyVal -> Result string string)
    (w : Main.World) (job_id other : string) (request : PriceRequest) :
  other <> job_id ->
  Main.active_jobs (Main.run_search_job json_dumps job_id request w) !! other
  = Main.active_jobs w !! other.
Proof.
  intros Hother.
  destruct (Main.active_jobs w !! job_id) as [j|] eqn:Hj;
    [|now rewrite run_search_job_unregistered].
  unfold Main.run_search_job, Main.run_search_job_trace. rewrite Hj.
  change (Main.crawler_manager (Main.update_job job_id (Main.set_status "running") w))
    with (Main.crawler_manager w).
  destruct (Main.crawler_manager w) as [manager|].
  - cbv zeta. set (w2 := Main.set_adapter_calls _ _).
    pose proof (db_step_keeps w2 request job_id
                  (CrawlerManager.search_all_platforms manager request)) as Hdb.
    cbv zeta in Hdb.
    set (w3 := match Main.db_service w2 with Some _ => _ | None => _ end) in *.
    destruct Hdb as (Hjobs & _).
    cbn [last default from_option id].
    rewrite send_results_keeps_jobs.
    cbn [Main.active_jobs Main.update_job Main.set_active_jobs].
    rewrite !lookup_alter_ne by congruence.
    rewrite Hjobs. subst w2.
    cbn [Main.active_jobs Main.set_adapter_calls Main.update_job Main.set_active_jobs].
    now rewrite lookup_alter_ne by congruence.
  - cbn [last default from_option id Main.active_jobs Main.update_job
         Main.set_active_jobs].
    now rewrite !lookup_alter_ne by congruence.
Qed.

Lemma run_search_job_registered (json_dumps : PyVal -> Result string string)
    (w : Main.World) (job_id : string) (request : PriceRequest) :
  is_Some (Main.active_jobs (Main.run_search_job json_dumps job_id request w) !! job_id)
  <-> is_Some (Main.active_jobs w !! job_id).
Proof.
  destruct (Main.active_jobs w !! job_id) as [j|] eqn:Hj.
  - rewrite (run_search_job_final json_dumps job_id request w j Hj),
      (run_search_job_history _ _ _ _ _ Hj).
    destruct (Main.crawler_manager w); cbn; split; eauto.
  - now rewrite run_search_job_unregistered, Hj.
Qed.

Lemma run_search_job_keeps_globals (json_dumps : PyVal -> Result string string)
    (w : Main.World) (job_id : string) (request : PriceRequest) :
  let w' := Main.run_search_job json_dumps job_id request w in
  Main.uuids_drawn w' = Main.uuids_drawn w
  /\ Main.clock w' = Main.clock w
  /\ Main.crawler_manager w' = Main.crawler_manager w.
Proof.
  cbv zeta.
  destruct (Main.active_jobs w !! job_id) as [j|] eqn:Hj;
    [|now rewrite run_search_job_unregistered].
  unfold Main.run_search_job, Main.run_search_job_trace. rewrite Hj.
  change (Main.crawler_manager (Main.update_job job_id (Main.set_status "running") w))
    with (Main.crawler_manager w).
  destruct (Main.crawler_manager w) as [manager|] eqn:Hm.
  - cbv zeta. set (w2 := Main.set_adapter_calls _ _).
    pose proof (db_step_keeps w2 request job_id
                  (CrawlerManager.search_all_platforms manager request)) as Hdb.
    cbv zeta in Hdb.
    set (w3 := match Main.db_service w2 with Some _ => _ | None => _ end) in *.
    destruct Hdb as (_ & Hclock & _ & _ & Huuids & Hmanager).
    cbn [last default from_option id].
    match goal with
    | |- context [Main.send_results_to_websockets ?jd ?i ?rs ?w9] =>
        destruct (send_results_keeps_rest jd i rs w9) as (Hc & Hcm & _ & Hu & _)
    end.
    rewrite Hc, Hcm, Hu.
    cbn [Main.uuids_drawn Main.clock Main.crawler_manager Main.update_job
         Main.set_active_jobs].
    rewrite Huuids, Hclock, Hmanager. subst w2. cbn. now rewrite Hm.
  - cbn. now rewrite Hm.
Qed.

(** X3: a run touches no job but its own: every other registered job is
    left exactly as it was, the job itself stays registered, and a run for
    an id that is not registered changes nothing at all. *)
Theorem run_search_job_touches_one_job
    (json_dumps : PyVal -> Result string string)
    (w : Main.World) (job_id : string) (request : PriceRequest) :
  let w' := Main.run_search_job json_dumps job_id request w in
  (forall other, other <> job_id ->
                 Main.active_jobs w' !! other = Main.active_jobs w !! other)
  /\ (is_Some (Main.active_jobs w' !! job_id) <-> is_Some (Main.active_jobs w !! job_id))
  /\ (Main.active_jobs w !! job_id = None -> w' = w).
Proof.
  cbv zeta. split; [|split].
  - intros other Hother. now apply run_search_job_other_jobs.
  - apply run_search_job_registered.
  - apply run_search_job_unregistered.
Qed.

(** X4: serving [POST /search] never removes a job and changes no job
    other than the one registered under the id it draws; it draws at most
    one id. *)
Theorem post_search_touches_one_job (uuid4 : nat -> string)
    (json_dumps : PyVal -> Result string string)
    (raw : RawPriceRequest) (w : Main.World) :
  let w' := snd (Main.post_search uuid4 json_dumps raw w) in
  (forall other, other <> uuid4 (Main.uuids_drawn w) ->
                 Main.active_jobs w' !! other = Main.active_jobs w !! other)
  /\ (forall id, is_Some (Main.active_jobs w !! id) ->
                 is_Some (Main.active_jobs w' !! id))
  /\ (Main.uuids_drawn w' = Main.uuids_drawn w
      \/ Main.uuids_drawn w' = S (Main.uuids_drawn w)).
Proof.
  cbv zeta. unfold Main.post_search.
  destruct (PriceRequest_init raw) as [request|errors]; [|cbn; auto].
  unfold Main.search_properties.
  destruct (Main.crawler_manager w) as [manager|]; [|cbn; auto].
  destruct (Main.db_service w) as [db|]; [|cbn; auto].
  destruct (Database.get_cached_prices _ _ _ _ _ _ _ _) as [cached|]; [cbn; auto|].
  cbn [Main.generate_job_id fst snd Main.run_background_tasks foldl].
  set (job_id := uuid4 (Main.uuids_drawn w)).
  set (w1 := Main.set_active_jobs _ _).
  split; [|split].
  - intros other Hother. rewrite run_search_job_other_jobs by exact Hother.
    subst w1. cbn. now rewrite lookup_insert_ne by congruence.
  - intros id Hid. destruct (decide (id = job_id)) as [->|Hne].
    + apply run_search_job_registered. subst w1. cbn.
      rewrite lookup_insert_eq. eauto.
    + rewrite run_search_job_other_jobs by exact Hne.
      subst w1. cbn. now rewrite lookup_insert_ne by congruence.
  - right. destruct (run_search_job_keeps_globals json_dumps w1 job_id request)
      as (Hu & _). rewrite Hu. reflexivity.
Qed.

(** ** Further properties of the handlers *)

(** X5: [search_properties] fails only with status 503, only when the
    crawler manager or the database service is not initialised, and then
    changes nothing and schedules nothing; an unreachable Redis is not an
    error: the lookup counts as a miss and a job is started. *)
Theorem search_properties_fails_only_uninitialised (uuid4 : nat -> string)
    (request : PriceRequest) (w : Main.World) :
  (forall e w' tasks,
      Main.search_properties uuid4 request w = (Raise e, w', tasks) ->
      Main.status_code e = 503 /\ w' = w /\ tasks = []
      /\ (Main.crawler_manager w = None \/ Main.db_service w = None))
  /\ (Main.crawler_manager w = None \/ Main.db_service w = None ->
      exists e, Main.search_properties uuid4 request w = (Raise e, w, []))
  /\ (forall manager db,
        Main.crawler_manager w = Some manager ->
        Main.db_service w = Some db ->
        Database.redis_up db = false ->
        exists response w1,
          Main.search_properties uuid4 request w
          = (Ok response, w1, [(uuid4 (Main.uuids_drawn w), request)])
          /\ Main.r_cached response = false
          /\ Main.r_job_id response = uuid4 (Main.uuids_drawn w)).
Proof.
  unfold Main.search_properties. split; [|split].
  - intros e w' tasks.
    destruct (Main.crawler_manager w) as [manager|];
      [|intros [= <- <- <-]; cbn; auto].
    destruct (Main.db_service w) as [db|];
      [|intros [= <- <- <-]; cbn; auto].
    destruct (Database.get_cached_prices _ _ _ _ _ _ _ _); discriminate.
  - intros [Hm | Hdb].
    + rewrite Hm. eauto.
    + rewrite Hdb. destruct (Main.crawler_manager w); eauto.
  - intros manager db Hm Hdb Hdown. rewrite Hm, Hdb.
    unfold Database.get_cached_prices, Database.redis_get. rewrite Hdown.
    cbn. eexists; eexists. repeat split.
Qed.



Lemma omap_total_Forall2 {A B : Type} (f : A -> option B) (xs : list A) :
  length (omap f xs) = length xs ->
  Forall2 (fun a b => f a = Some b) xs (omap f xs).
Proof.
  induction xs as [|x xs IH]; cbn [omap list_omap]; [constructor|].
  pose proof (length_omap_le f xs) as Hle.
  destruct (f x) as [b|] eqn:Hx; cbn [length]; intros Hlen; [|lia].
  constructor; [exact Hx | apply IH; lia].
Qed.

(** X7: while a job that is not yet completed runs, the results query
    never shows a partial state: at every point of the run it either
    refuses, or returns the whole aggregate together with its count. *)
Theorem results_never_partial (json_dumps : PyVal -> Result string string)
    (w : Main.World) (job_id : string) (request : PriceRequest) (job0 : Main.Job)
    (manager : CrawlerManager.CrawlerManager) :
  Main.crawler_manager w = Some manager ->
  Main.active_jobs w !! job_id = Some job0 ->
  Main.status job0 <> "completed" ->
  forall wi answer,
    In wi (w :: Main.run_search_job_trace json_dumps job_id request w) ->
    Main.get_job_results job_id wi = Ok answer ->
    Main.jr_results answer = CrawlerManager.search_all_platforms manager request
    /\ Main.jr_total_results answer
       = length (CrawlerManager.search_all_platforms manager request).
Proof.
  intros Hm Hj Hpending wi answer Hin.
  assert (Hlookup : exists ji,
             Main.active_jobs wi !! job_id = Some ji
             /\ In ji (job0 :: completed_history manager request (Main.clock w)
                                 (Main.clock w) job0)).
  { destruct Hin as [<- | Hin]; [exists job0; split; [exact Hj | now left]|].
    pose proof (omap_total_Forall2 (fun w0 => Main.active_jobs w0 !! job_id) _
                  (run_search_job_trace_length json_dumps job_id request w job0 Hj))
      as Hall.
    fold (Main.job_history job_id
            (Main.run_search_job_trace json_dumps job_id request w)) in Hall.
    rewrite (run_search_job_history _ _ _ _ _ Hj), Hm in Hall.
    apply list_elem_of_In in Hin.
    destruct (proj1 (list_elem_of_lookup _ _) Hin) as [i Hi].
    destruct (Forall2_lookup_l _ _ _ _ _ Hall Hi) as (ji & Hji & Hlook).
    exists ji. split; [exact Hlook|]. right.
    apply list_elem_of_In, list_elem_of_lookup. eauto. }
  destruct Hlookup as (ji & Hlook & Hji).
  unfold Main.get_job_results. rewrite Hlook.
  unfold completed_history in Hji. cbn [In] in Hji.
  repeat (destruct Hji as [<- | Hji];
          [cbn [Main.status Main.set_status Main.set_results Main.set_progress
                Main.set_completed_platforms Main.set_completed_at
                Main.set_execution_time];
           case_bool_decide;
           [discriminate | first [congruence | intros [= <-]; cbn; split; reflexivity]]|]).
  destruct Hji.
Qed.

Lemma results_never_partial_witness :
  exists answer,
    Main.get_job_results "job-00"
      (Main.run_search_job demo_json_dumps "job-00" grand_hotel job_registered)
    = Ok answer
    /\ Main.jr_results answer = CrawlerManager.search_all_platforms demo_manager grand_hotel
    /\ Main.jr_total_results answer
       = length (CrawlerManager.search_all_platforms demo_manager grand_hotel).
Proof.
  assert (Hget : exists answer,
             Main.get_job_results "job-00"
               (Main.run_search_job demo_json_dumps "job-00" grand_hotel job_registered)
             = Ok answer) by (eexists; vm_compute; reflexivity).
  destruct Hget as [answer Hget]. exists answer. split; [exact Hget|].
  apply (results_never_partial demo_json_dumps job_registered "job-00" grand_hotel
           job_00_pending demo_manager eq_refl job_registered_lookup
           ltac:(discriminate)
           (Main.run_search_job demo_json_dumps "job-00" grand_hotel job_registered)
           answer); [|exact Hget].
  right. vm_compute. do 9 right. left. reflexivity.
Defined.

(** ** Further properties of the broadcast and of the stored-prices query *)

Lemma deliver_keeps_identity (texts : list string) (c : Main.WebSocket) :
  Main.ws_id (deliver texts c) = Main.ws_id c
  /\ Main.ws_job_id (deliver texts c) = Main.ws_job_id c
  /\ Main.ws_open (deliver texts c) = Main.ws_open c
  /\ Main.ws_received c `prefix_of` Main.ws_received (deliver texts c)
  /\ (Main.ws_open c = false -> deliver texts c = c).
Proof.
  unfold deliver. destruct c as [i j o r]; cbn. destruct o; cbn.
  - repeat split; [now exists texts | discriminate].
  - repeat split; reflexivity.
Qed.

(** X8: a broadcast never drops, adds or reorders connections and never
    loses what a client had already received: afterwards the connection
    list holds the same clients (same ids, jobs and open flags) in the same
    order, each inbox extends the old one, a client on which sending raises
    stays in the list unchanged, and nothing but the connection list
    changes. For a job that is not registered the broadcast does nothing. *)
Theorem broadcast_keeps_connections (json_dumps : PyVal -> Result string string)
    (job_id : string) (results : list SearchResult) (w : Main.World) :
  let w' := Main.send_results_to_websockets json_dumps job_id results w in
  map Main.ws_id (Main.active_connections w') = map Main.ws_id (Main.active_connections w)
  /\ map Main.ws_job_id (Main.active_connections w')
     = map Main.ws_job_id (Main.active_connections w)
  /\ map Main.ws_open (Main.active_connections w')
     = map Main.ws_open (Main.active_connections w)
  /\ Forall2 (fun before after =>
                Main.ws_received before `prefix_of` Main.ws_received after
                /\ (Main.ws_open before = false -> after = before))
             (Main.active_connections w) (Main.active_connections w')
  /\ w' = Main.set_active_connections (Main.active_connections w') w
  /\ (Main.active_jobs w !! job_id = None -> w' = w).
Proof.
  cbv zeta. unfold Main.send_results_to_websockets.
  destruct (Main.active_jobs w !! job_id) as [job|].
  - rewrite broadcast_loop.
    set (texts := serialised json_dumps _).
    cbn [Main.active_connections Main.set_active_connections].
    rewrite !map_map.
    split; [apply map_ext; intros c; apply deliver_keeps_identity|].
    split; [apply map_ext; intros c; apply deliver_keeps_identity|].
    split; [apply map_ext; intros c; apply deliver_keeps_identity|].
    split; [|split; [reflexivity | discriminate]].
    induction (Main.active_connections w) as [|c cs IH]; cbn; constructor;
      [split; apply deliver_keeps_identity | exact IH].
  - repeat split; try reflexivity.
    + induction (Main.active_connections w) as [|c cs IH]; constructor;
        [split; [reflexivity | auto] | exact IH].
    + now destruct w.
Qed.

(** X9: the stored-prices query answers from the cache whenever the cache
    has an unexpired entry, whatever the store holds; it answers from the
    store only after a cache miss; and it never answers 404: with the
    database service missing it raises 503, and when neither tier has a
    match the 404 raised inside the [try] is caught and becomes a 500. *)
Theorem get_stored_prices_answers (hotel_name city country : string)
    (checkin checkout : date) (state : option string) (w : Main.World) :
  (forall db cached,
      Main.db_service w = Some db ->
      Database.get_cached_prices db (Main.clock w) hotel_name city country
        checkin checkout state = Some cached ->
      Main.get_stored_prices hotel_name city country checkin checkout state w
      = Ok (Main.FromCache cached))
  /\ (forall r,
        Main.get_stored_prices hotel_name city country checkin checkout state w
        = Ok (Main.FromMongodb r) ->
        exists db,
          Main.db_service w = Some db
          /\ Database.get_cached_prices db (Main.clock w) hotel_name city country
               checkin checkout state = None
          /\ Database.get_prices_from_mongodb db hotel_name city country
               checkin checkout state = Some r)
  /\ (forall e,
        Main.get_stored_prices hotel_name city country checkin checkout state w
        = Raise e ->
        (Main.status_code e = 503 /\ Main.db_service w = None)
        \/ (Main.status_code e = 500
            /\ exists db,
                Main.db_service w = Some db
                /\ Database.get_cached_prices db (Main.clock w) hotel_name city
                     country checkin checkout state = None
                /\ Database.get_prices_from_mongodb db hotel_name city country
                     checkin checkout state = None)).
Proof.
  unfold Main.get_stored_prices. split; [|split].
  - intros db cached -> Hhit. now rewrite Hhit.
  - intros r. destruct (Main.db_service w) as [db|]; [|discriminate].
    destruct (Database.get_cached_prices _ _ _ _ _ _ _ _) as [c|] eqn:Hc; [discriminate|].
    destruct (Database.get_prices_from_mongodb _ _ _ _ _ _ _) as [m|] eqn:Hm;
      [|discriminate].
    intros [= <-]. exists db. auto.
  - intros e. destruct (Main.db_service w) as [db|]; [|intros [= <-]; now left].
    destruct (Database.get_cached_prices _ _ _ _ _ _ _ _) as [c|] eqn:Hc; [discriminate|].
    destruct (Database.get_prices_from_mongodb _ _ _ _ _ _ _) as [m|] eqn:Hm;
      [discriminate|].
    intros [= <-]. right. split; [reflexivity | exists db; auto].
Qed.

(** ** Further properties of the cache and of the grouping *)


Lemma append_to_platform_keys (p : string) (r : SearchResult)
    (groups : list (string * list SearchResult)) (q : string) :
  In q (map fst (Database.append_to_platform p r groups))
  <-> q = p \/ In q (map fst groups).
Proof.
  induction groups as [|[k rs] rest IH]; cbn.
  - intuition congruence.
  - case_bool_decide as Hk; cbn.
    + subst k. intuition.
    + rewrite IH. intuition.
Qed.

Lemma append_to_platform_NoDup (p : string) (r : SearchResult)
    (groups : list (string * list SearchResult)) :
  NoDup (map fst groups) ->
  NoDup (map fst (Database.append_to_platform p r groups)).
Proof.
  induction groups as [|[k rs] rest IH]; cbn; intros Hnd.
  - repeat constructor. inversion 1.
  - apply NoDup_cons in Hnd. destruct Hnd as [Hk Hrest].
    case_bool_decide as Hkp; cbn.
    + apply NoDup_cons. split; assumption.
    + apply NoDup_cons. split; [|now apply IH].
      rewrite list_elem_of_In, append_to_platform_keys.
      rewrite list_elem_of_In in Hk. intuition congruence.
Qed.

Lemma append_to_platform_group (p : string) (r : SearchResult)
    (groups : list (string * list SearchResult)) (q : string) :
  group_of q (Database.append_to_platform p r groups)
  = if bool_decide (q = p) then group_of p groups ++ [r] else group_of q groups.
Proof.
  induction groups as [|[k rs] rest IH]; cbn.
  - repeat case_bool_decide; congruence.
  - destruct (decide (k = p)) as [->|Hkp].
    + rewrite bool_decide_eq_true_2 by reflexivity. cbn.
      repeat case_bool_decide; subst; first [reflexivity | congruence].
    + rewrite (bool_decide_eq_false_2 (k = p)) by exact Hkp. cbn. rewrite IH.
      repeat case_bool_decide; subst; first [reflexivity | congruence].
Qed.

Lemma append_to_platform_perm (p : string) (r : SearchResult)
    (groups : list (string * list SearchResult)) :
  Permutation (concat (map snd (Database.append_to_platform p r groups)))
              (concat (map snd groups) ++ [r]).
Proof.
  induction groups as [|[k rs] rest IH]; cbn; [reflexivity|].
  case_bool_decide; cbn.
  - rewrite <- !app_assoc. apply Permutation_app_head, Permutation_app_comm.
  - rewrite IH. now rewrite app_assoc.
Qed.

Lemma group_of_In (groups : list (string * list SearchResult)) (p : string)
    (rs : list SearchResult) :
  NoDup (map fst groups) -> In (p, rs) groups -> group_of p groups = rs.
Proof.
  induction groups as [|[k ks] rest IH]; cbn; [tauto|].
  intros Hnd Hin. apply NoDup_cons in Hnd. destruct Hnd as [Hk Hrest].
  destruct Hin as [[= -> ->] | Hin].
  - now rewrite bool_decide_eq_true_2.
  - case_bool_decide as Hkp; [|now apply IH].
    subst k. exfalso. apply Hk, list_elem_of_In, in_map_iff.
    now exists (p, rs).
Qed.

Lemma grouped_step (groups : list (string * list SearchResult))
    (seen : list SearchResult) (r : SearchResult) :
  grouped groups seen ->
  grouped (Database.append_to_platform (platform r) r groups) (seen ++ [r]).
Proof.
  intros (Hnd & Hkeys & Hgroup & Hperm). repeat split.
  - now apply append_to_platform_NoDup.
  - rewrite append_to_platform_keys, Hkeys.
    intros [-> | (r' & Hr' & <-)].
    + exists r. split; [apply in_or_app; right; now left | reflexivity].
    + exists r'. split; [apply in_or_app; now left | reflexivity].
  - intros (r' & Hr' & <-). rewrite append_to_platform_keys, Hkeys.
    apply in_app_or in Hr'. destruct Hr' as [Hr' | [<- | []]]; eauto.
  - intros q. rewrite append_to_platform_group, !Hgroup. unfold of_platform.
    rewrite filter_app, filter_cons, filter_nil.
    case_bool_decide as Hq.
    + subst q. now rewrite decide_True by reflexivity.
    + rewrite decide_False by congruence. now rewrite app_nil_r.
  - rewrite append_to_platform_perm. now apply Permutation_app_tail.
Qed.

Lemma grouped_foldl (results : list SearchResult) :
  forall groups seen,
    grouped groups seen ->
    grouped (foldl (fun groups r => Database.append_to_platform (platform r) r groups)
                   groups results)
            (seen ++ results).
Proof.
  induction results as [|r rs IH]; intros groups seen Hg; cbn [foldl].
  - now rewrite app_nil_r.
  - replace (seen ++ r :: rs) with ((seen ++ [r]) ++ rs) by now rewrite <- app_assoc.
    apply IH, grouped_step, Hg.
Qed.

(** X11: the grouping of [save_search_results] has one group per platform
    that occurs among the results, each platform appearing once; the group
    of a platform is never empty and holds exactly the results of that
    platform in their original order; and the groups together are a
    rearrangement of the results, so that their sizes add up to
    [total_results]. *)
Theorem group_by_platform_partitions (results : list SearchResult) :
  let groups := Database.group_by_platform results in
  NoDup (map fst groups)
  /\ (forall p, In p (map fst groups) <-> exists r, In r results /\ platform r = p)
  /\ (forall p rs, In (p, rs) groups -> rs <> [] /\ rs = of_platform p results)
  /\ Permutation (concat (map snd groups)) results
  /\ sum_list (map (fun g => length (snd g)) groups) = length results.
Proof.
  cbv zeta. unfold Database.group_by_platform.
  assert (H0 : grouped [] []).
  { repeat split; cbn; try tauto; try constructor.
    intros (r & [] & _). }
  pose proof (grouped_foldl results [] [] H0) as (Hnd & Hkeys & Hgroup & Hperm).
  cbn [app] in *.
  set (groups := foldl _ [] results) in *.
  split; [exact Hnd|]. split; [exact Hkeys|]. split; [|split; [exact Hperm|]].
  - intros p rs Hin.
    pose proof (group_of_In groups p rs Hnd Hin) as Hrs.
    rewrite Hgroup in Hrs. split; [|now symmetry].
    assert (Hp : In p (map fst groups)) by (apply in_map_iff; now exists (p, rs)).
    apply Hkeys in Hp. destruct Hp as (r & Hr & Hpr).
    intros ->. unfold of_platform in Hrs.
    assert (Hin' : r ∈ filter (fun r0 => platform r0 = p) results)
      by (apply list_elem_of_filter; split; [exact Hpr | now apply list_elem_of_In]).
    rewrite Hrs in Hin'. inversion Hin'.
  - rewrite <- (Permutation_length Hperm), length_concat_sum, map_map. reflexivity.
Qed.

(** ** Further properties of the retry loop *)



Lemma make_request_from_ext (max_retries delay : Z)
    (net net' : Z -> BaseCrawler.Attempt) (todo : nat) :
  forall (attempt : Z) (slept : BaseCrawler.Sleeps),
    attempt + Z.of_nat todo = max_retries ->
    (forall i, attempt <= i < max_retries -> net i = net' i) ->
    BaseCrawler.make_request_from max_retries delay net todo attempt slept
    = BaseCrawler.make_request_from max_retries delay net' todo attempt slept.
Proof.
  induction todo as [|todo IH]; intros attempt slept Hsum Hsame; [reflexivity|].
  cbn [BaseCrawler.make_request_from].
  rewrite <- (Hsame attempt) by lia.
  assert (Hnext : forall sl,
             BaseCrawler.make_request_from max_retries delay net todo (attempt + 1) sl
             = BaseCrawler.make_request_from max_retries delay net' todo (attempt + 1) sl).
  { intros sl. apply IH; [lia|]. intros i Hi. apply Hsame. lia. }
  destruct (net attempt) as [a|e].
  - destruct (BaseCrawler.resp_status a =? 200); [reflexivity|].
    destruct (BaseCrawler.resp_status a =? 429); apply Hnext.
  - destruct (attempt =? max_retries - 1); [reflexivity | apply Hnext].
Qed.

(** X13: [make_request] makes at most the configured number of attempts:
    its result and its sleeps depend only on what the network does at the
    attempts [0 .. max_retries - 1]; with a configured number of zero or
    less it makes no attempt, sleeps not at all and returns [None]. *)
Theorem make_request_attempts_are_bounded (c : BaseCrawler.BaseCrawler)
    (net : Z -> BaseCrawler.Attempt) :
  (forall net',
      (forall i, 0 <= i < BaseCrawler.cfg_max_retries c -> net i = net' i) ->
      BaseCrawler.make_request c net = BaseCrawler.make_request c net')
  /\ (BaseCrawler.cfg_max_retries c <= 0 ->
      BaseCrawler.make_request c net = (Ok None, [])
      /\ BaseCrawler.get_page_content c net = Ok None).
Proof.
  split.
  - intros net' Hsame. unfold BaseCrawler.make_request.
    destruct (Z_le_gt_dec (BaseCrawler.cfg_max_retries c) 0) as [Hle|Hgt].
    + replace (Z.to_nat (BaseCrawler.cfg_max_retries c)) with O by lia. reflexivity.
    + apply make_request_from_ext; [lia | exact Hsame].
  - intros Hle. unfold BaseCrawler.get_page_content, BaseCrawler.make_request.
    replace (Z.to_nat (BaseCrawler.cfg_max_retries c)) with O by lia.
    split; reflexivity.
Qed.

Lemma total_sleep_app (a b : BaseCrawler.Sleeps) :
  total_sleep (a ++ b) = total_sleep a + total_sleep b.
Proof.
  unfold total_sleep. induction a as [|x a IH]; cbn; [reflexivity | lia].
Qed.

Lemma sleep_budget_nonneg (delay : Z) (todo : nat) :
  forall attempt, 0 <= delay -> 0 <= attempt -> 0 <= sleep_budget delay todo attempt.
Proof.
  induction todo as [|todo IH]; intros attempt Hd Ha; cbn; [lia|].
  specialize (IH (attempt + 1) Hd ltac:(lia)).
  destruct (0 <? attempt); nia.
Qed.

Lemma make_request_from_sleeps (max_retries delay : Z)
    (net : Z -> BaseCrawler.Attempt) (todo : nat) :
  forall (attempt : Z) (slept : BaseCrawler.Sleeps),
    0 <= delay -> 0 <= attempt ->
    total_sleep (snd (BaseCrawler.make_request_from max_retries delay net todo
                        attempt slept))
    <= total_sleep slept + sleep_budget delay todo attempt.
Proof.
  induction todo as [|todo IH]; intros attempt slept Hd Ha;
    cbn [BaseCrawler.make_request_from sleep_budget snd]; [lia|].
  pose proof (sleep_budget_nonneg delay todo (attempt + 1) Hd ltac:(lia)) as Hb.
  set (slept1 := if 0 <? attempt then slept ++ [delay] else slept).
  assert (H1 : total_sleep slept1
               = total_sleep slept + (if 0 <? attempt then delay else 0)).
  { subst slept1. destruct (0 <? attempt); [|lia].
    rewrite total_sleep_app. unfold total_sleep. cbn. lia. }
  assert (Hwait : 0 <= (attempt + 1) * delay * 2) by nia.
  destruct (net attempt) as [a|e].
  - destruct (BaseCrawler.resp_status a =? 200); [cbn [snd]; lia|].
    destruct (BaseCrawler.resp_status a =? 429).
    + etransitivity; [apply IH; lia|].
      rewrite total_sleep_app. unfold total_sleep at 2. cbn. lia.
    + etransitivity; [apply IH; lia|]. lia.
  - destruct (attempt =? max_retries - 1); [cbn [snd]; lia|].
    etransitivity; [apply IH; lia|]. lia.
Qed.

Lemma make_request_from_sleeps_rate_limited (max_retries delay : Z)
    (net : Z -> BaseCrawler.Attempt) (todo : nat) :
  forall (attempt : Z) (slept : BaseCrawler.Sleeps),
    attempt + Z.of_nat todo = max_retries ->
    (forall i, attempt <= i < max_retries -> rate_limited (net i) = true) ->
    total_sleep (snd (BaseCrawler.make_request_from max_retries delay net todo
                        attempt slept))
    = total_sleep slept + sleep_budget delay todo attempt.
Proof.
  induction todo as [|todo IH]; intros attempt slept Hsum Hall;
    cbn [BaseCrawler.make_request_from sleep_budget snd]; [lia|].
  pose proof (Hall attempt ltac:(lia)) as Hnow.
  destruct (net attempt) as [a|e]; cbn in Hnow; [|discriminate].
  apply Z.eqb_eq in Hnow. rewrite Hnow. cbn [Z.eqb Pos.eqb].
  rewrite IH by (try lia; intros i Hi; apply Hall; lia).
  rewrite total_sleep_app.
  destruct (0 <? attempt); rewrite ?total_sleep_app; unfold total_sleep; cbn; lia.
Qed.

Lemma sleep_budget_closed (delay : Z) (todo : nat) :
  forall attempt,
    1 <= attempt ->
    sleep_budget delay todo attempt
    = delay * Z.of_nat todo
      + delay * (2 * Z.of_nat todo * attempt + Z.of_nat todo * (Z.of_nat todo + 1)).
Proof.
  induction todo as [|todo IH]; intros attempt Ha;
    cbn [sleep_budget]; [lia|].
  rewrite IH by lia.
  destruct (Z.ltb_spec 0 attempt); [|lia]. nia.
Qed.

(** X14: with a non-negative base delay and [n >= 1] configured attempts,
    one [make_request] sleeps at most [delay * (n - 1) + delay * n * (n + 1)]
    seconds in all, and exactly that long when every attempt is answered
    by a rate limit. *)
Theorem make_request_sleep_bound (c : BaseCrawler.BaseCrawler)
    (net : Z -> BaseCrawler.Attempt) :
  0 <= BaseCrawler.cfg_delay c ->
  1 <= BaseCrawler.cfg_max_retries c ->
  let n := BaseCrawler.cfg_max_retries c in
  let bound := BaseCrawler.cfg_delay c * (n - 1) + BaseCrawler.cfg_delay c * n * (n + 1) in
  total_sleep (snd (BaseCrawler.make_request c net)) <= bound
  /\ ((forall i, 0 <= i < n -> rate_limited (net i) = true) ->
      total_sleep (snd (BaseCrawler.make_request c net)) = bound).
Proof.
  intros Hd Hn. cbv zeta.
  set (n := BaseCrawler.cfg_max_retries c) in *.
  set (delay := BaseCrawler.cfg_delay c) in *.
  assert (Hbudget : sleep_budget delay (Z.to_nat n) 0
                    = delay * (n - 1) + delay * n * (n + 1)).
  { destruct (Z.to_nat n) as [|m] eqn:Hm; [lia|].
    cbn [sleep_budget]. rewrite sleep_budget_closed by lia.
    cbn [Z.ltb Z.compare]. assert (Z.of_nat m = n - 1) by lia. nia. }
  unfold BaseCrawler.make_request. fold n delay. split.
  - etransitivity; [apply make_request_from_sleeps; lia|].
    rewrite Hbudget. unfold total_sleep. cbn. lia.
  - intros Hall. rewrite make_request_from_sleeps_rate_limited by (try lia; exact Hall).
    rewrite Hbudget. unfold total_sleep. cbn. lia.
Qed.


Lemma make_request_sleep_bound_witness :
  total_sleep (snd (BaseCrawler.make_request (BaseCrawler.init "airbnb")
                      (always_answers 429))) <= 28
  /\ ((forall i, 0 <= i < 3 -> rate_limited (always_answers 429 i) = true) ->
      total_sleep (snd (BaseCrawler.make_request (BaseCrawler.init "airbnb")
                          (always_answers 429))) = 28).
Proof.
  apply (make_request_sleep_bound (BaseCrawler.init "airbnb") (always_answers 429)).
  - vm_compute. discriminate.
  - vm_compute. discriminate.
Defined.

(** ** Further properties of the text helpers *)

Lemma string_app_cons (c : ascii) (s t : string) :
  String c s +:+ t = String c (s +:+ t).
Proof. reflexivity. Qed.










(** ** Further properties of the extraction helpers *)

Example extraction_examples :
  BaseCrawler.search_decimal (BaseCrawler.remove_commas "$1,234.56 per night")
  = Some "1234.56"
  /\ BaseCrawler.search_decimal "Rated 4.85 out of 5" = Some "4.85"
  /\ BaseCrawler._extract_review_count 4300 "1,234 reviews" = Some 1234
  /\ BaseCrawler._extract_review_count 4300 "no reviews yet" = None
  /\ BaseCrawler.search_decimal "12." = Some "12."
  /\ BaseCrawler.search_decimal ".5" = Some "5".
Proof. repeat split. Qed.
















(** ** Further properties of the listing extraction *)





Example demo_listing_extracted :
  AirbnbCrawler._extract_listing_data demo_float 4300 1000 demo_listing ""
  = Some {| platform := "airbnb"; property_name := "Grand Hotel Loft";
            price := 4%Q; currency := "USD"; availability := true;
            url := Some "https://www.airbnb.com/rooms/42";
            rating := Some 4%Q; review_count := Some 1024;
            amenities := Some ["Wifi"; "Kitchen"]; image_url := None;
            fetched_at := 1000 |}.
Proof. reflexivity. Qed.

(** ** Further properties of the request model *)







(** ** Further properties of the cache key and of the retry budget *)

Lemma string_app_inv_head (p a b : string) : p +:+ a = p +:+ b -> a = b.
Proof.
  induction p as [|c p IH]; [exact (fun H => H)|].
  rewrite !string_app_cons. intros [= H]. auto.
Qed.

Lemma split_at_colon (a a' r r' : string) :
  no_colon a = true -> no_colon a' = true ->
  a +:+ String ":" r = a' +:+ String ":" r' -> a = a' /\ r = r'.
Proof.
  revert a'. induction a as [|c a IH]; intros [|c' a']; cbn [no_colon].
  - intros _ _ [= ->]. auto.
  - rewrite string_app_cons. intros _ H [= <- _].
    rewrite Ascii.eqb_refl in H. discriminate.
  - rewrite string_app_cons. intros H _ [= -> _].
    rewrite Ascii.eqb_refl in H. discriminate.
  - rewrite !string_app_cons.
    intros [_ Ha]%andb_prop [_ Ha']%andb_prop [= -> H].
    destruct (IH _ Ha Ha' H) as [-> ->]. auto.
Qed.

Lemma digit_inj (a b : Z) : Date.digit a = Date.digit b -> a mod 10 = b mod 10.
Proof.
  unfold Date.digit. intros H.
  apply (f_equal nat_of_ascii) in H.
  pose proof (Z.mod_pos_bound a 10 ltac:(lia)).
  pose proof (Z.mod_pos_bound b 10 ltac:(lia)).
  rewrite !nat_ascii_embedding in H by lia. lia.
Qed.

Lemma isoformat_app (d : date) (rest : string) :
  Date.isoformat d +:+ rest
  = String (Date.digit (Date.year d / 1000)) (String (Date.digit (Date.year d / 100))
      (String (Date.digit (Date.year d / 10)) (String (Date.digit (Date.year d))
        (String "-" (String (Date.digit (Date.month d / 10))
          (String (Date.digit (Date.month d))
            (String "-" (String (Date.digit (Date.day d / 10))
              (String (Date.digit (Date.day d)) rest))))))))).
Proof. reflexivity. Qed.

Lemma days_in_month_le (y m : Z) : Date.days_in_month y m <= 31.
Proof.
  unfold Date.days_in_month.
  repeat match goal with |- context [if ?b then _ else _] => destruct b end; lia.
Qed.

Lemma four_digits_inj (y y' : Z) :
  0 <= y < 10000 -> 0 <= y' < 10000 ->
  (y / 1000) mod 10 = (y' / 1000) mod 10 -> (y / 100) mod 10 = (y' / 100) mod 10 ->
  (y / 10) mod 10 = (y' / 10) mod 10 -> y mod 10 = y' mod 10 -> y = y'.
Proof. intros. Z.div_mod_to_equations. lia. Qed.

Lemma two_digits_inj (m m' : Z) :
  0 <= m < 100 -> 0 <= m' < 100 ->
  (m / 10) mod 10 = (m' / 10) mod 10 -> m mod 10 = m' mod 10 -> m = m'.
Proof. intros. Z.div_mod_to_equations. lia. Qed.

Lemma valid_bounds (d : date) :
  Date.valid d = true ->
  0 <= Date.year d < 10000 /\ 0 <= Date.month d < 100 /\ 0 <= Date.day d < 100.
Proof.
  unfold Date.valid. intros H.
  pose proof (days_in_month_le (Date.year d) (Date.month d)).
  repeat match goal with
         | H : _ && _ = true |- _ => apply andb_prop in H as [H ?]
         | H : (_ <=? _) = true |- _ => apply Z.leb_le in H
         end.
  lia.
Qed.

Lemma isoformat_app_inj (d d' : date) (rest rest' : string) :
  Date.valid d = true -> Date.valid d' = true ->
  Date.isoformat d +:+ rest = Date.isoformat d' +:+ rest' ->
  d = d' /\ rest = rest'.
Proof.
  intros (Hy & Hm & Hd)%valid_bounds (Hy' & Hm' & Hd')%valid_bounds.
  rewrite !isoformat_app.
  intros [= Hy3 Hy2 Hy1 Hy0 Hm1 Hm0 Hd1 Hd0 Hrest].
  apply digit_inj in Hy3, Hy2, Hy1, Hy0, Hm1, Hm0, Hd1, Hd0.
  destruct d as [y m dd], d' as [y' m' dd']; cbn in *.
  rewrite (four_digits_inj y y'), (two_digits_inj m m'), (two_digits_inj dd dd');
    auto.
Qed.

Lemma string_cons_inv (c : ascii) (a b : string) : String c a = String c b -> a = b.
Proof. now intros [= ?]. Qed.

Lemma to_key_unfold (k : CacheKey) :
  to_key k
  = "prices:" +:+ (key_hotel_name k +:+ String ":" (key_city k +:+ String ":"
      (key_country k +:+ String ":"
        (Date.isoformat (key_checkin_date k) +:+ String ":"
           (Date.isoformat (key_checkout_date k)
            +:+ (if truthy_opt_str (key_state k)
                 then String ":" (default "" (key_state k)) else "")))))).
Proof.
  unfold to_key. destruct (key_state k) as [[|c s]|]; reflexivity.
Qed.

Lemma to_key_inj (k1 k2 : CacheKey) :
  unambiguous k1 = true -> unambiguous k2 = true ->
  to_key k1 = to_key k2 -> same_criteria k1 k2.
Proof.
  unfold unambiguous. intros H1 H2.
  repeat match goal with
         | H : _ && _ = true |- _ => apply andb_prop in H as [H ?]
         end.
  rewrite !to_key_unfold.
  intros E%string_app_inv_head.
  apply split_at_colon in E as [Hn E]; [|assumption..].
  apply split_at_colon in E as [Hc E]; [|assumption..].
  apply split_at_colon in E as [Hk E]; [|assumption..].
  apply isoformat_app_inj in E as [Hci E]; [|assumption..].
  apply string_cons_inv in E.
  apply isoformat_app_inj in E as [Hco Hs]; [|assumption..].
  repeat split; try assumption.
  unfold effective_state.
  destruct (key_state k1) as [[|c s]|], (key_state k2) as [[|c' s']|];
    cbn in *; congruence.
Qed.

(** X22: two cache keys whose hotel name, city and country hold no colon
    (and whose dates are calendar dates) have the same text exactly when
    they agree on the hotel name, the city, the country and both dates, and
    on the state, an empty state counting as none. The state may hold
    colons. *)
Theorem to_key_injective_without_separator (k1 k2 : CacheKey) :
  unambiguous k1 = true -> unambiguous k2 = true ->
  (to_key k1 = to_key k2 <-> same_criteria k1 k2).
Proof.
  intros H1 H2. split; [now apply to_key_inj|].
  intros (Hn & Hc & Hk & Hci & Hco & Hs). rewrite !to_key_unfold.
  rewrite Hn, Hc, Hk, Hci, Hco. do 6 f_equal.
  unfold effective_state in Hs.
  destruct (key_state k1) as [[|c s]|], (key_state k2) as [[|c' s']|];
    cbn in *; congruence.
Qed.

Lemma to_key_injective_without_separator_witness :
  to_key (grand_hotel_key "Grand Hotel" (Some "")) = to_key (grand_hotel_key "Grand Hotel" None)
  <-> same_criteria (grand_hotel_key "Grand Hotel" (Some "")) (grand_hotel_key "Grand Hotel" None).
Proof.
  apply (to_key_injective_without_separator (grand_hotel_key "Grand Hotel" (Some ""))
           (grand_hotel_key "Grand Hotel" None)); reflexivity.
Defined.

(** X23: caching a record does not disturb the lookups of other searches:
    when neither the record's nor the query's hotel name, city and country
    hold a colon, a lookup for criteria that differ from the record's in
    some field answers after the write what it answered before it. *)
Theorem cache_keeps_searches_apart (db : Database.DatabaseService) (now later : Z)
    (r : CrawledPriceRecord) (q : CacheKey) :
  unambiguous (record_key r) = true -> unambiguous q = true ->
  ~ same_criteria q (record_key r) ->
  Database.get_cached_prices (fst (Database.cache_prices db now r)) later
    (key_hotel_name q) (key_city q) (key_country q) (key_checkin_date q)
    (key_checkout_date q) (key_state q)
  = Database.get_cached_prices db later
      (key_hotel_name q) (key_city q) (key_country q) (key_checkin_date q)
      (key_checkout_date q) (key_state q).
Proof.
  intros Hr Hq Hdiff.
  unfold Database.cache_prices, Database.redis_setex.
  destruct (Database.redis_up db) eqn:Hup; [|reflexivity].
  cbn [fst]. unfold Database.get_cached_prices, Database.redis_get.
  cbn [Database.redis_up Database.set_redis_keys Database.redis_keys].
  rewrite Hup.
  assert (Hkey : Database.get_cache_key (rec_hotel_name r) (rec_city r) (rec_country r)
                   (rec_checkin_date r) (rec_checkout_date r) (rec_state r)
                 <> Database.get_cache_key (key_hotel_name q) (key_city q)
                      (key_country q) (key_checkin_date q) (key_checkout_date q)
                      (key_state q)).
  { intros E. apply Hdiff. apply to_key_inj; [assumption..|].
    destruct q. symmetry. exact E. }
  now rewrite lookup_insert_ne.
Qed.

Lemma cache_keeps_searches_apart_witness :
  Database.get_cached_prices
    (fst (Database.cache_prices demo_db 0 grand_hotel_aggregate)) 10
    "Grand Hotel" "Lyon" "France" (Date.mk 2025 6 1) (Date.mk 2025 6 3) None
  = Database.get_cached_prices demo_db 10
      "Grand Hotel" "Lyon" "France" (Date.mk 2025 6 1) (Date.mk 2025 6 3) None.
Proof.
  apply (cache_keeps_searches_apart demo_db 0 10 grand_hotel_aggregate
           {| key_hotel_name := "Grand Hotel"; key_city := "Lyon";
              key_country := "France"; key_checkin_date := Date.mk 2025 6 1;
              key_checkout_date := Date.mk 2025 6 3; key_state := None |}).
  - reflexivity.
  - reflexivity.
  - intros (_ & H & _). discriminate H.
Defined.

Lemma configured_crawler (name : string) :
  BaseCrawler.cfg_max_retries (BaseCrawler.init name) = 3
  /\ (BaseCrawler.cfg_delay (BaseCrawler.init name) = 2
      \/ BaseCrawler.cfg_delay (BaseCrawler.init name) = 3).
Proof.
  unfold BaseCrawler.cfg_max_retries, BaseCrawler.cfg_delay, BaseCrawler.init,
    Config.get_platform_config, Config.PLATFORMS.
  cbn.
  repeat case_decide; cbn; auto.
Qed.

(** X24: a crawler built by [BaseCrawler.__init__], for any platform name
    (configured or not), makes at most three attempts per request, so the
    outcome depends on the first three answers of the network only, and it
    sleeps at most 42 seconds in all during one request, whatever the
    network does. *)
Theorem configured_crawler_retry_budget (name : string)
    (net : Z -> BaseCrawler.Attempt) :
  let c := BaseCrawler.init name in
  BaseCrawler.cfg_max_retries c = 3
  /\ (BaseCrawler.cfg_delay c = 2 \/ BaseCrawler.cfg_delay c = 3)
  /\ total_sleep (snd (BaseCrawler.make_request c net)) <= 42
  /\ (forall net',
        net 0 = net' 0 -> net 1 = net' 1 -> net 2 = net' 2 ->
        BaseCrawler.make_request c net = BaseCrawler.make_request c net').
Proof.
  cbv zeta. destruct (configured_crawler name) as [Hn Hd].
  split; [exact Hn|]. split; [exact Hd|].
  unfold BaseCrawler.make_request. rewrite Hn. split.
  - etransitivity; [apply make_request_from_sleeps; lia|].
    destruct Hd as [-> | ->]; vm_compute; discriminate.
  - intros net' H0 H1 H2. apply make_request_from_ext; [reflexivity|].
    intros i Hi.
    assert (i = 0 \/ i = 1 \/ i = 2) as [-> | [-> | ->]] by lia; assumption.
Qed.
